(** * The Angular compiler-cli host ([ng_host.ts]): path rewriting and
      metadata lookup, embedded in Rocq.

    The TypeScript class [NgHost] and its default filesystem context
    [NodeNgHostContext] are translated function by function.  JavaScript
    strings are [string]s, the objects used as dictionaries are [gmap]s, and
    the methods that mutate fields or throw run in a small state-and-exception
    monad. *)

From Stdlib Require Import ZArith Lia Ascii.
From stdpp Require Import base option list strings gmap.

Local Open Scope Z_scope.

(** ** JavaScript string primitives used by the host *)

Module JsString.

(** [s.slice(0, n)] and [s.slice(n)] for an index [n] inside the string. *)
Fixpoint take (n : nat) (s : string) : string :=
  match n, s with
  | S n', String c s' => String c (take n' s')
  | _, _ => ""
  end.

Fixpoint drop (n : nat) (s : string) : string :=
  match n, s with
  | S n', String _ s' => drop n' s'
  | _, _ => s
  end.

(** [s.startsWith(p)] *)
Fixpoint startsWith (s p : string) : bool :=
  match p, s with
  | "", _ => true
  | String c p', String d s' => if Ascii.eqb c d then startsWith s' p' else false
  | String _ _, "" => false
  end.

(** Position of the first occurrence of [needle] in [s], scanning from the
    left as [String.prototype.indexOf] does. *)
Fixpoint firstIndex (s needle : string) : option nat :=
  if startsWith s needle then Some 0%nat
  else match s with
       | "" => None
       | String _ s' => S <$> firstIndex s' needle
       end.

(** [s.indexOf(needle)]: the position, or [-1]. *)
Definition indexOf (s needle : string) : Z :=
  match firstIndex s needle with
  | Some i => Z.of_nat i
  | None => -1
  end.

(** [s.substring(start)]: a negative [start] counts as [0], one past the
    end gives the empty string. *)
Definition substring (s : string) (start : Z) : string :=
  drop (Z.to_nat start) s.

(** [s.replace(/\\/g, '/')] *)
Fixpoint replaceBackslashes (s : string) : string :=
  match s with
  | "" => ""
  | String c s' =>
      String (if Ascii.eqb c "\"%char then "/"%char else c) (replaceBackslashes s')
  end.

(** The expansion of a replacement template ([GetSubstitution] of
    ECMAScript) when the pattern is a string, so that there are no capture
    groups: [$$], [$&], [$`] and [$'] are special, every other character
    (also a [$] followed by anything else) is copied. *)
Fixpoint getSubstitution (matched before after template : string) : string :=
  match template with
  | "" => ""
  | String c rest =>
      if Ascii.eqb c "$"%char then
        match rest with
        | String d rest' =>
            if Ascii.eqb d "$"%char then
              String "$"%char (getSubstitution matched before after rest')
            else if Ascii.eqb d "&"%char then
              matched +:+ getSubstitution matched before after rest'
            else if Ascii.eqb d "`"%char then
              before +:+ getSubstitution matched before after rest'
            else if Ascii.eqb d "'"%char then
              after +:+ getSubstitution matched before after rest'
            else String c (getSubstitution matched before after rest)
        | "" => String c ""
        end
      else String c (getSubstitution matched before after rest)
  end.

(** [s.replace(pattern, replacement)] with a string pattern: only the first
    occurrence is replaced, wherever it is. *)
Definition replace (s pattern replacement : string) : string :=
  match firstIndex s pattern with
  | None => s
  | Some i =>
      let before := take i s in
      let after := drop (i + String.length pattern) s in
      before +:+ getSubstitution pattern before after replacement +:+ after
  end.

(** A regular expression of the shape [/(a1|a2|...|an)$/]: alternatives
    anchored at the end of the input. *)
Definition SuffixRegex := list string.

(** [re.exec(s)]: the leftmost position where the remainder of the input is
    one of the alternatives. *)
Fixpoint regexIndex (re : SuffixRegex) (s : string) : option nat :=
  if existsb (String.eqb s) re then Some 0%nat
  else match s with
       | "" => None
       | String _ s' => S <$> regexIndex re s'
       end.

(** [re.test(s)] *)
Definition regexTest (re : SuffixRegex) (s : string) : bool :=
  match regexIndex re s with Some _ => true | None => false end.

(** [s.replace(re, replacement)] for a replacement without [$]: the match
    runs to the end of the input, so the text before it is kept and the
    replacement appended. *)
Definition regexReplace (re : SuffixRegex) (s replacement : string) : string :=
  match regexIndex re s with
  | None => s
  | Some i => take i s +:+ replacement
  end.

Fixpoint contains (c : ascii) (s : string) : bool :=
  match s with
  | "" => false
  | String d s' => Ascii.eqb d c || contains c s'
  end.

End JsString.

(** ** Node's [path] module, POSIX flavour

    [ng_host.ts] imports [path] from Node.js and calls [normalize], [join],
    [dirname] and [relative].  The host is written against this interface;
    [Posix.path] below models the POSIX implementation of Node, which is
    not part of the repository: paths are cut into segments, [.] and [..]
    are resolved as [normalizeString] does, and [relative] compares the
    segments of the two resolved paths. *)

Record PathModule := {
  path_normalize : string → string;
  path_join : string → string → string;
  path_dirname : string → string;
  path_relative : string → string → string
}.

Module Posix.
Import JsString.

(** [s.split('/')] *)
Fixpoint split (s : string) : list string :=
  match s with
  | "" => [""]
  | String c s' =>
      if Ascii.eqb c "/"%char then "" :: split s'
      else match split s' with
           | [] => [String c ""]
           | seg :: segs => String c seg :: segs
           end
  end.

(** [segs.join('/')] *)
Fixpoint joinSegments (segs : list string) : string :=
  match segs with
  | [] => ""
  | [seg] => seg
  | seg :: segs' => seg +:+ "/" +:+ joinSegments segs'
  end.

(** One step of [normalizeString]: [stack] holds the segments kept so far,
    last one first.  Empty and [.] segments are dropped, [..] removes the
    segment before it, and is itself kept only above the start of a
    relative path. *)
Definition normalizeStep (allowAboveRoot : bool) (stack : list string)
    (seg : string) : list string :=
  if String.eqb seg "" || String.eqb seg "." then stack
  else if String.eqb seg ".." then
    match stack with
    | top :: below =>
        if String.eqb top ".." then
          (if allowAboveRoot then seg :: stack else stack)
        else below
    | [] => if allowAboveRoot then [seg] else []
    end
  else seg :: stack.

Definition normalizeSegments (allowAboveRoot : bool) (p : string) : list string :=
  rev (fold_left (normalizeStep allowAboveRoot) (split p) []).

Definition isAbsolute (p : string) : bool := startsWith p "/".

Definition endsWithSlash (p : string) : bool :=
  match String.get (String.length p - 1) p with
  | Some c => Ascii.eqb c "/"%char
  | None => false
  end.

Definition normalize (p : string) : string :=
  if String.eqb p "" then "."
  else
    let body := joinSegments (normalizeSegments (negb (isAbsolute p)) p) in
    if String.eqb body "" then
      (if isAbsolute p then "/" else if endsWithSlash p then "./" else ".")
    else
      let body := if endsWithSlash p then body +:+ "/" else body in
      if isAbsolute p then "/" +:+ body else body.

(** [path.join(a, b)]: empty arguments are skipped. *)
Definition join (a b : string) : string :=
  if String.eqb a "" then (if String.eqb b "" then "." else normalize b)
  else if String.eqb b "" then normalize a
  else normalize (a +:+ "/" +:+ b).

(** The loop of [path.dirname], from index [i] down to index 1:
    the position of the separator that ends the directory part. *)
Fixpoint dirnameEnd (p : string) (i : nat) (matchedSlash : bool) : option nat :=
  match i with
  | O => None
  | S i' =>
      match String.get i p with
      | Some c =>
          if Ascii.eqb c "/"%char then
            (if matchedSlash then dirnameEnd p i' true else Some i)
          else dirnameEnd p i' false
      | None => dirnameEnd p i' matchedSlash
      end
  end.

Definition dirname (p : string) : string :=
  if String.eqb p "" then "."
  else
    match dirnameEnd p (String.length p - 1) true with
    | None => if isAbsolute p then "/" else "."
    | Some e => if isAbsolute p && Nat.eqb e 1 then "//" else take e p
    end.

(** [path.resolve(p)]: the segments of the absolute, normalized path;
    a relative [p] is taken from the working directory [cwd]. *)
Definition resolveSegments (cwd p : string) : list string :=
  normalizeSegments false (if isAbsolute p then p else cwd +:+ "/" +:+ p).

Fixpoint dropCommon (from to : list string) : list string * list string :=
  match from, to with
  | f :: from', t :: to' =>
      if String.eqb f t then dropCommon from' to' else (from, to)
  | _, _ => (from, to)
  end.

(** [path.relative(from, to)]: one [..] for every segment of [from] below
    the common ancestor, then the segments of [to] below it. *)
Definition relative (cwd from to : string) : string :=
  if String.eqb from to then ""
  else
    let '(up, down) := dropCommon (resolveSegments cwd from) (resolveSegments cwd to) in
    joinSegments (map (λ _, "..") up ++ down).

Definition path (cwd : string) : PathModule :=
  {| path_normalize := normalize; path_join := join;
     path_dirname := dirname; path_relative := relative cwd |}.

End Posix.

(** ** Values, errors and the world outside the host *)

(** What [JSON.parse] can return.  Numbers are kept as integers: the host
    only asks whether a value is an empty array and whether it is truthy. *)
#[warnings="-register-all"]
Inductive Json :=
| JNull
| JBool (b : bool)
| JNumber (n : Z)
| JString (s : string)
| JArray (items : list Json)
| JObject (fields : list (string * Json)).

(** A [ModuleMetadata] as the host passes it around; [None] is [undefined]. *)
Definition Metadata := option Json.

Definition truthyJson (j : Json) : bool :=
  match j with
  | JNull => false
  | JBool b => b
  | JNumber n => negb (n =? 0)
  | JString s => negb (String.eqb s "")
  | JArray _ | JObject _ => true
  end.

Definition truthy (m : Metadata) : bool :=
  match m with
  | None => false
  | Some j => truthyJson j
  end.

(** [Array.isArray(metadata) && metadata.length == 0] *)
Definition isEmptyArray (j : Json) : bool :=
  match j with
  | JArray [] => true
  | _ => false
  end.

(** The exceptions the host and its context can raise. *)
Inductive Error :=
| RelativeWithoutContainingFile
    (* 'Resolution of relative paths requires a containing file.' *)
| SourceFileNotInProgram (filePath : string)
    (* `Source file ${filePath} not present in program.` *)
| ResourceFileNotFound (s : string)
    (* `Compilation failed. Resource file not found: ${s}` *)
| ReadFileFailed (fileName : string)
    (* thrown by fs.readFileSync *)
| JsonSyntaxError (text : string).
    (* thrown by JSON.parse *)

Definition Result (A : Type) : Type := Error + A.

(** I/O the host performs, in the order performed. *)
Inductive Effect :=
| ReadFile (fileName : string)
| ParseJson (filePath : string)
| CollectMetadata (filePath : string)
| ConsoleError (filePath : string).

Record AngularCompilerOptions := {
  opt_basePath : string;
  opt_genDir : string
}.

(** The collaborators at one moment of the run: the [ts.CompilerHost], the
    disk as Node's [fs] sees it, and the [ts.Program]. *)
Record Env (SourceFile : Type) := {
  host_fileExists : string → bool;
  host_readFile : string → option string;
  fs_readFileSync : string → option string;   (* [None]: the call throws *)
  fs_isDirectory : string → bool;
    (* [fs.statSync(d).isDirectory()], [false] when [statSync] throws *)
  program_getSourceFile : string → option SourceFile
}.
Arguments host_fileExists {_} _ _.
Arguments host_readFile {_} _ _.
Arguments fs_readFileSync {_} _ _.
Arguments fs_isDirectory {_} _ _.
Arguments program_getSourceFile {_} _ _.

(** The part of the context that [ts.resolveModuleName] may call. *)
Record ModuleResolutionHost := {
  mrh_fileExists : string → bool;
  mrh_directoryExists : string → bool;
  mrh_readFile : string → Result string
}.

(** Library functions the host delegates to. *)
Record Externals (SourceFile : Type) := {
  resolveModuleName :
    string → string → AngularCompilerOptions → ModuleResolutionHost → option string;
    (* [ts.resolveModuleName(...).resolvedModule.resolvedFileName] *)
  createSourceFile : string → string → SourceFile;
  collector_getMetadata : SourceFile → Metadata;
  JSON_parse : string → option Json   (* [None]: SyntaxError *)
}.
Arguments resolveModuleName {_} _ _ _ _ _.
Arguments createSourceFile {_} _ _ _.
Arguments collector_getMetadata {_} _ _.
Arguments JSON_parse {_} _ _.

(** [interface NgHostContext] *)
Class NgHostContext (SourceFile C : Type) := {
  fileExists : Env SourceFile → C → string → bool;
  directoryExists : Env SourceFile → C → string → bool;
  readFile : Env SourceFile → C → string → Result string;
  readResource : Env SourceFile → C → string → Result (option string);
  assumeFileExists : C → string → C
}.

Definition EXT : JsString.SuffixRegex := [".ts"; ".d.ts"; ".js"; ".jsx"; ".tsx"].
Definition DTS : JsString.SuffixRegex := [".d.ts"].
Definition NODE_MODULES : string := "/node_modules/".
Definition IS_GENERATED : JsString.SuffixRegex := [".ngfactory"; ".css"; ".css.shim"].

(** ** [class NodeNgHostContext] *)

Module NodeNgHostContext.

(** [assumedExists] is a plain object, [{}], used as a dictionary from
    file names to [true]: the map holds the names that were assigned.  (An
    assignment to [__proto__] is dropped by JavaScript; as that name reads
    truthy in any case, see [assumed], recording it changes no answer.) *)
Record t := { assumedExists : gmap string bool }.

Definition new : t := {| assumedExists := ∅ |}.

(** The names a plain object inherits from [Object.prototype].  Read from
    [{}], each gives a function or an object, which is truthy. *)
Definition inheritedProperties : list string :=
  ["constructor"; "__defineGetter__"; "__defineSetter__"; "hasOwnProperty";
   "__lookupGetter__"; "__lookupSetter__"; "isPrototypeOf";
   "propertyIsEnumerable"; "toString"; "valueOf"; "__proto__"; "toLocaleString"].

(** The truthiness of [this.assumedExists[fileName]]: an assigned name, or
    an inherited one. *)
Definition assumed (this : t) (fileName : string) : bool :=
  default false (assumedExists this !! fileName) ||
  existsb (String.eqb fileName) inheritedProperties.

Section Methods.
Context {SourceFile : Type}.
Variable env : Env SourceFile.

Definition fileExists (this : t) (fileName : string) : bool :=
  assumed this fileName || host_fileExists env fileName.

Definition directoryExists (this : t) (directoryName : string) : bool :=
  fs_isDirectory env directoryName.

Definition readFile (this : t) (fileName : string) : Result string :=
  match fs_readFileSync env fileName with
  | Some text => inr text
  | None => inl (ReadFileFailed fileName)
  end.

Definition readResource (this : t) (s : string) : Result (option string) :=
  if negb (host_fileExists env s) then inl (ResourceFileNotFound s)
  else inr (host_readFile env s).
End Methods.

Definition assumeFileExists (this : t) (fileName : string) : t :=
  {| assumedExists := <[fileName := true]> (assumedExists this) |}.

End NodeNgHostContext.

#[export] Instance NodeNgHostContext_context (SourceFile : Type) :
    NgHostContext SourceFile NodeNgHostContext.t := {|
  fileExists := NodeNgHostContext.fileExists;
  directoryExists := NodeNgHostContext.directoryExists;
  readFile := NodeNgHostContext.readFile;
  readResource := NodeNgHostContext.readResource;
  assumeFileExists := NodeNgHostContext.assumeFileExists
|}.

(** ** [class NgHost] *)

Section NgHost.
Import JsString.
Context {SourceFile C : Type} `{!NgHostContext SourceFile C}.
Variable path : PathModule.
Variable lib : Externals SourceFile.

(** The fields of an instance.  [trace] is not a field of the class: it
    records the reads, parses and collector calls made through it. *)
Record NgHost := {
  options : AngularCompilerOptions;
  basePath : string;
  genDir : string;
  isGenDirChildOfRootDir : bool;
  context : C;
  resolverCache : gmap string Metadata;
  trace : list Effect
}.

Definition withContext (this : NgHost) (c : C) : NgHost :=
  {| options := options this; basePath := basePath this; genDir := genDir this;
     isGenDirChildOfRootDir := isGenDirChildOfRootDir this;
     context := c; resolverCache := resolverCache this; trace := trace this |}.

Definition withResolverCache (this : NgHost) (m : gmap string Metadata) : NgHost :=
  {| options := options this; basePath := basePath this; genDir := genDir this;
     isGenDirChildOfRootDir := isGenDirChildOfRootDir this;
     context := context this; resolverCache := m; trace := trace this |}.

Definition withTrace (this : NgHost) (t : list Effect) : NgHost :=
  {| options := options this; basePath := basePath this; genDir := genDir this;
     isGenDirChildOfRootDir := isGenDirChildOfRootDir this;
     context := context this; resolverCache := resolverCache this; trace := t |}.

(** [constructor] (lines 34-44) *)
Definition new (opts : AngularCompilerOptions) (ctx : C) : NgHost :=
  let basePath :=
    replaceBackslashes (path_normalize path (path_join path (opt_basePath opts) ".")) in
  let genDir :=
    replaceBackslashes (path_normalize path (path_join path (opt_genDir opts) ".")) in
  let genPath := path_relative path basePath genDir in
  {| options := opts; basePath := basePath; genDir := genDir;
     isGenDirChildOfRootDir := String.eqb genPath "" || negb (startsWith genPath "..");
     context := ctx; resolverCache := ∅; trace := [] |}.

(** Methods run on the instance and either return or throw; what they
    changed before throwing stays changed. *)
Definition M (A : Type) : Type := NgHost → Result A * NgHost.

Definition ret {A} (a : A) : M A := λ this, (inr a, this).
Definition throw {A} (e : Error) : M A := λ this, (inl e, this).
Definition bind {A B} (m : M A) (f : A → M B) : M B :=
  λ this, match m this with
          | (inr a, this') => f a this'
          | (inl e, this') => (inl e, this')
          end.
Definition getThis : M NgHost := λ this, (inr this, this).
Definition modify (f : NgHost → NgHost) : M unit := λ this, (inr tt, f this).
Definition lift {A} (r : Result A) : M A := λ this, (r, this).
Definition emit (e : Effect) : M unit :=
  modify (λ this, withTrace this (trace this ++ [e])).
Definition tryCatch {A} (m : M A) (handler : Error → M A) : M A :=
  λ this, match m this with
          | (inl e, this') => handler e this'
          | r => r
          end.

#[local] Instance M_ret : MRet M := @ret.
#[local] Instance M_bind : MBind M := λ A B f m, bind m f.

(** [Map.prototype.get]: [undefined] for a missing key. *)
Definition cacheGet (cache : gmap string Metadata) (key : string) : Metadata :=
  default None (cache !! key).

Definition moduleResolutionHost (env : Env SourceFile) (ctx : C) : ModuleResolutionHost :=
  {| mrh_fileExists := fileExists env ctx;
     mrh_directoryExists := directoryExists env ctx;
     mrh_readFile := readFile env ctx |}.

(** [getCanonicalFileName] (line 47): "we use absolute paths on disk as
    canonical". *)
Definition getCanonicalFileName (fileName : string) : string := fileName.

(** [resolveImportToFile] (lines 49-62).  [containingFile] may be
    [undefined] or [null]: [None]. *)
Definition resolveImportToFile (env : Env SourceFile) (m : string)
    (containingFile : option string) : M (option string) :=
  this ← getThis;
  containingFile ←
    match containingFile with
    | Some cf =>
        if String.eqb cf "" || Nat.eqb (String.length cf) 0 then
          if indexOf m "." =? 0 then throw RelativeWithoutContainingFile
          else ret (path_join path (basePath this) "index.ts")
        else ret cf
    | None =>
        if indexOf m "." =? 0 then throw RelativeWithoutContainingFile
        else ret (path_join path (basePath this) "index.ts")
    end;
  let m := regexReplace EXT m "" in
  ret (resolveModuleName lib m (replaceBackslashes containingFile) (options this)
         (moduleResolutionHost env (context this))).

(** [dotRelative] (lines 121-124) *)
Definition dotRelative (from to : string) : string :=
  let rPath := replaceBackslashes (path_relative path from to) in
  if startsWith rPath "." then rPath else "./" +:+ rPath.

(** [rewriteGenDirPath] (lines 129-139): "moves the path into genDir
    folder while preserving the node_modules directory". *)
Definition rewriteGenDirPath (this : NgHost) (filepath : string) : string :=
  let nodeModulesIndex := indexOf filepath NODE_MODULES in
  if negb (nodeModulesIndex =? -1) then
    path_join path (genDir this) (substring filepath nodeModulesIndex)
  else
    replace filepath (basePath this) (genDir this).

(** [if (importModule)]: [null] and the empty string are falsy. *)
Definition truthyString (s : option string) : bool :=
  match s with
  | Some s => negb (String.eqb s "")
  | None => false
  end.

(** [resolveFileToImport] (lines 79-119) *)
Definition resolveFileToImport (env : Env SourceFile)
    (importedFile containingFile : string) : M string :=
  (if negb (host_fileExists env importedFile)
   then modify (λ this, withContext this (assumeFileExists (context this) importedFile))
   else ret tt);;
  this ← getThis;
  let containingFile := rewriteGenDirPath this containingFile in
  let containingDir := path_dirname path containingFile in
  let importedFile := regexReplace EXT importedFile "" in
  let nodeModulesIndex := indexOf importedFile NODE_MODULES in
  let importModule :=
    if nodeModulesIndex =? -1 then None
    else Some (substring importedFile
                 (nodeModulesIndex + Z.of_nat (String.length NODE_MODULES))) in
  let isGeneratedFile := regexTest IS_GENERATED importedFile in
  if isGeneratedFile then
    if truthyString importModule then
      ret (dotRelative containingDir
             (genDir this +:+ NODE_MODULES +:+ default "" importModule))
    else
      let importedFile := rewriteGenDirPath this importedFile in
      ret (dotRelative containingDir importedFile)
  else
    if truthyString importModule then
      ret (default "" importModule)
    else
      let importedFile :=
        if negb (isGenDirChildOfRootDir this)
        then replace importedFile (basePath this) (genDir this)
        else importedFile in
      ret (dotRelative containingDir importedFile).

(** [this.context.readFile(filePath)] *)
Definition contextReadFile (env : Env SourceFile) (filePath : string) : M string :=
  this ← getThis;
  emit (ReadFile filePath);;
  lift (readFile env (context this) filePath).

(** [this.metadataCollector.getMetadata(sf)] for the source file of [filePath] *)
Definition collect (filePath : string) (sf : SourceFile) : M Metadata :=
  emit (CollectMetadata filePath);;
  ret (collector_getMetadata lib sf).

(** [JSON.parse(this.context.readFile(filePath))] *)
Definition parseFile (env : Env SourceFile) (filePath : string) : M Json :=
  text ← contextReadFile env filePath;
  emit (ParseJson filePath);;
  match JSON_parse lib text with
  | Some j => ret j
  | None => throw (JsonSyntaxError text)
  end.

(** [readMetadata] (lines 171-178): the cached value if there is a truthy
    one, else the parsed file; a failure is logged and thrown on. *)
Definition readMetadata (env : Env SourceFile) (filePath : string) : M Json :=
  tryCatch
    (this ← getThis;
     match cacheGet (resolverCache this) filePath with
     | Some cached => if truthyJson cached then ret cached else parseFile env filePath
     | None => parseFile env filePath
     end)
    (λ e, emit (ConsoleError filePath);; throw e).

(** [getMetadataFor] (lines 143-169) *)
Definition getMetadataFor (env : Env SourceFile) (filePath : string) : M Metadata :=
  this ← getThis;
  if negb (fileExists env (context this) filePath) then ret None
  else if regexTest DTS filePath then
    let metadataPath := regexReplace DTS filePath ".metadata.json" in
    if fileExists env (context this) metadataPath then
      metadata ← readMetadata env metadataPath;
      ret (if isEmptyArray metadata then None else Some metadata)
    else ret None
  else
    match program_getSourceFile env filePath with
    | None =>
        if fileExists env (context this) filePath then
          sourceText ← contextReadFile env filePath;
          collect filePath (createSourceFile lib filePath sourceText)
        else throw (SourceFileNotInProgram filePath)
    | Some sf => collect filePath sf
    end.

(** [loadResource] (line 180); the promise is modelled by its outcome. *)
Definition loadResource (env : Env SourceFile) (filePath : string) : M (option string) :=
  this ← getThis;
  lift (readResource env (context this) filePath).

(** [getResolverMetadata] (lines 182-189), private and without a caller
    in the class. *)
Definition getResolverMetadata (env : Env SourceFile) (filePath : string) : M Metadata :=
  this ← getThis;
  let metadata := cacheGet (resolverCache this) filePath in
  if negb (truthy metadata) then
    metadata ← getMetadataFor env filePath;
    modify (λ this, withResolverCache this (<[filePath := metadata]> (resolverCache this)));;
    ret metadata
  else ret metadata.

(** A method call on the host or on its context, as the compiler driver
    makes them one after the other. *)
Inductive Call :=
| CallResolveImportToFile (m : string) (containingFile : option string)
| CallResolveFileToImport (importedFile containingFile : string)
| CallGetMetadataFor (filePath : string)
| CallReadMetadata (filePath : string)
| CallLoadResource (filePath : string)
| CallGetResolverMetadata (filePath : string)
| CallAssumeFileExists (fileName : string).

(** The instance after a call, whether it returned or threw. *)
Definition after (env : Env SourceFile) (call : Call) (this : NgHost) : NgHost :=
  match call with
  | CallResolveImportToFile m containingFile =>
      snd (resolveImportToFile env m containingFile this)
  | CallResolveFileToImport importedFile containingFile =>
      snd (resolveFileToImport env importedFile containingFile this)
  | CallGetMetadataFor filePath => snd (getMetadataFor env filePath this)
  | CallReadMetadata filePath => snd (readMetadata env filePath this)
  | CallLoadResource filePath => snd (loadResource env filePath this)
  | CallGetResolverMetadata filePath => snd (getResolverMetadata env filePath this)
  | CallAssumeFileExists fileName =>
      withContext this (assumeFileExists (context this) fileName)
  end.

(** A run: calls in order, each against the collaborators as they are at
    that moment. *)
Fixpoint run (calls : list (Env SourceFile * Call)) (this : NgHost) : NgHost :=
  match calls with
  | [] => this
  | (env, call) :: calls' => run calls' (after env call this)
  end.

End NgHost.

(** ** Vocabulary of the specification *)

Section Vocabulary.
Import JsString.

(** [needle] occurs in [s] between [pre] and [post], and nowhere further
    to the left. *)
Definition FirstOccurrence (needle s pre post : string) : Prop :=
  s = pre +:+ needle +:+ post ∧
  ∀ pre' post', s = pre' +:+ needle +:+ post' →
                (String.length pre ≤ String.length pre')%nat.

Definition Absent (needle s : string) : Prop :=
  ∀ pre post, s ≠ pre +:+ needle +:+ post.

(** Position of the last occurrence of [needle] in [s]. *)
Fixpoint lastIndex (s needle : string) : option nat :=
  match s with
  | "" => if startsWith s needle then Some 0%nat else None
  | String _ s' =>
      match lastIndex s' needle with
      | Some i => Some (S i)
      | None => if startsWith s needle then Some 0%nat else None
      end
  end.

(** "Everything after the last such marker is the module id." *)
Definition moduleIdAfterLastMarker (p : string) : option string :=
  match lastIndex p NODE_MODULES with
  | Some i => Some (drop (i + String.length NODE_MODULES) p)
  | None => None
  end.

(** "A relative-path marker ([./] or [../])". *)
Definition beginsWithRelativeMarker (s : string) : bool :=
  startsWith s "./" || startsWith s "../".

(** "Replace a leading basePath prefix with genDir", a path that does not
    start with it is left as it is. *)
Definition replaceLeadingPrefix (s prefix replacement : string) : string :=
  if startsWith s prefix then replacement +:+ drop (String.length prefix) s else s.

(** A call that left the context and the cache of the host alone. *)
Definition keepsContextAndCache {C : Type} (this this' : NgHost (C:=C)) : Prop :=
  context this' = context this ∧ resolverCache this' = resolverCache this.

(** The extensions [EXT] drops from the end of [base +:+ ext], leaving
    [base]: all five, except [.ts] after a name ending in [.d]. *)
Definition droppedExtension (base ext : string) : Prop :=
  In ext [".ts"; ".js"; ".jsx"; ".tsx"; ".d.ts"] ∧
  (ext = ".ts" → ∀ q, base ≠ q +:+ ".d").

(** A segment kept by [path.normalize]: not empty, and free of both kinds
    of slash when the path given had no backslash. *)
Definition cleanSegment (seg : string) : Prop :=
  seg ≠ "" ∧ contains "/" seg = false ∧ contains "\" seg = false.

(** The calls open to the compiler driver: everything but the private
    [getResolverMetadata]. *)
Definition isPublicCall (call : Call) : bool :=
  match call with
  | CallGetResolverMetadata _ => false
  | _ => true
  end.

End Vocabulary.

(** ** A small project to run the host on *)

Module Sample.

(** Source files are just their text here. *)
Definition SourceFile : Type := string.

(** On disk: the source [/proj/src/a.ts], the declaration files
    [/proj/lib/b.d.ts] and [/proj/lib/c.d.ts] with their sidecars (an empty
    array and an empty object), and a dependency.  The program has no
    source file loaded. *)
Definition disk (fileName : string) : option string :=
  if String.eqb fileName "/proj/src/a.ts" then Some "export class A {}"
  else if String.eqb fileName "/proj/lib/b.d.ts" then Some "export declare class B {}"
  else if String.eqb fileName "/proj/lib/b.metadata.json" then Some "[]"
  else if String.eqb fileName "/proj/lib/c.d.ts" then Some "export declare class C {}"
  else if String.eqb fileName "/proj/lib/c.metadata.json" then Some "{}"
  else if String.eqb fileName "/proj/node_modules/rxjs/Observable.d.ts"
  then Some "export declare class Observable {}"
  else None.

Definition env : Env SourceFile := {|
  host_fileExists := λ f, match disk f with Some _ => true | None => false end;
  host_readFile := disk;
  fs_readFileSync := disk;
  fs_isDirectory := λ d,
    String.eqb d "/proj" || String.eqb d "/proj/src" || String.eqb d "/proj/lib";
  program_getSourceFile := λ _, None
|}.

(** The same project before anything was written. *)
Definition emptyEnv : Env SourceFile := {|
  host_fileExists := λ _, false;
  host_readFile := λ _, None;
  fs_readFileSync := λ _, None;
  fs_isDirectory := λ _, false;
  program_getSourceFile := λ _, None
|}.

(** Stand-ins for the TypeScript resolver, the metadata collector and
    [JSON.parse]: resolution looks for a declaration file in the dependency
    directory, the collector finds nothing to report, and only [[]] and
    [{}] parse. *)
Definition lib : Externals SourceFile := {|
  resolveModuleName := λ m containingFile _ host,
    let candidate := "/proj/node_modules/" +:+ m +:+ ".d.ts" in
    if mrh_fileExists host candidate then Some candidate else None;
  createSourceFile := λ _ text, text;
  collector_getMetadata := λ _, None;
  JSON_parse := λ text,
    if String.eqb text "[]" then Some (JArray [])
    else if String.eqb text "{}" then Some (JObject [])
    else None
|}.

Definition path : PathModule := Posix.path "/".

(** genDir nested in basePath. *)
Definition nested : AngularCompilerOptions :=
  {| opt_basePath := "/proj/src"; opt_genDir := "/proj/src/gen" |}.

(** genDir next to basePath. *)
Definition sideBySide : AngularCompilerOptions :=
  {| opt_basePath := "/proj/src"; opt_genDir := "/out" |}.

Definition host (opts : AngularCompilerOptions) : NgHost :=
  new path opts NodeNgHostContext.new.

(** The specifier for an import, before anything was written to disk. *)
Definition importFrom (opts : AngularCompilerOptions)
    (importedFile containingFile : string) : Result string :=
  fst (resolveFileToImport path emptyEnv importedFile containingFile (host opts)).

End Sample.

(** ** The sample project with a program loaded *)

Module Loaded.

(** As [Sample.env], with [/proj/src/a.ts] in the program. *)
Definition env : Env Sample.SourceFile := {|
  host_fileExists := host_fileExists Sample.env;
  host_readFile := host_readFile Sample.env;
  fs_readFileSync := fs_readFileSync Sample.env;
  fs_isDirectory := fs_isDirectory Sample.env;
  program_getSourceFile := λ f,
    if String.eqb f "/proj/src/a.ts" then Some "export class A {}" else None
|}.

End Loaded.

(** ** Facts about the string primitives *)

Module JsStringFacts.
Import JsString.

Lemma app_nil (t : string) : "" +:+ t = t.
Proof. reflexivity. Qed.

Lemma app_cons (c : ascii) (s t : string) :
  String c s +:+ t = String c (s +:+ t).
Proof. reflexivity. Qed.

Lemma app_nil_r (s : string) : s +:+ "" = s.
Proof. induction s as [|c s IH]; [done|]. by rewrite app_cons, IH. Qed.

Lemma app_assoc (s t u : string) : (s +:+ t) +:+ u = s +:+ t +:+ u.
Proof. induction s as [|c s IH]; [done|]. by rewrite !app_cons, IH. Qed.

Lemma length_app (s t : string) :
  String.length (s +:+ t) = (String.length s + String.length t)%nat.
Proof.
  induction s as [|c s IH]; [done|]. rewrite app_cons. simpl. by rewrite IH.
Qed.

Lemma take_app_length (s t : string) : take (String.length s) (s +:+ t) = s.
Proof.
  induction s as [|c s IH]; simpl; [done|]. by rewrite ?app_cons, IH.
Qed.

Lemma drop_app_length (s t : string) : drop (String.length s) (s +:+ t) = t.
Proof. induction s as [|c s IH]; simpl; [reflexivity | by rewrite ?app_cons]. Qed.

Lemma drop_add_app (s t : string) (n : nat) :
  drop (String.length s + n) (s +:+ t) = drop n t.
Proof. induction s as [|c s IH]; simpl; [reflexivity | by rewrite ?app_cons]. Qed.

Lemma startsWith_app (p t : string) : startsWith (p +:+ t) p = true.
Proof.
  induction p as [|c p IH]; [by destruct t|].
  rewrite app_cons. simpl. by rewrite Ascii.eqb_refl.
Qed.

Lemma startsWith_true (s p : string) :
  startsWith s p = true → s = p +:+ drop (String.length p) s.
Proof.
  revert s. induction p as [|c p IH]; intros s Hs; [done|].
  destruct s as [|d s]; simpl in Hs; [done|].
  destruct (Ascii.eqb c d) eqn:Hcd; [|done].
  apply Ascii.eqb_eq in Hcd as ->. simpl. rewrite app_cons. f_equal. by apply IH.
Qed.

Lemma firstIndex_unfold (s needle : string) :
  firstIndex s needle =
    if startsWith s needle then Some 0%nat
    else match s with
         | "" => None
         | String _ s' => S <$> firstIndex s' needle
         end.
Proof. by destruct s. Qed.

(** [indexOf] finds an occurrence ... *)
Lemma firstIndex_occurs (s needle : string) (i : nat) :
  firstIndex s needle = Some i →
  ∃ pre post, s = pre +:+ needle +:+ post ∧ String.length pre = i.
Proof.
  revert i. induction s as [|c s IH]; intros i; rewrite firstIndex_unfold.
  - destruct (startsWith "" needle) eqn:Hp; [|done].
    intros [= <-]. exists "", (drop (String.length needle) ""). split; [|done].
    by apply startsWith_true.
  - destruct (startsWith (String c s) needle) eqn:Hp.
    + intros [= <-]. exists "", (drop (String.length needle) (String c s)).
      split; [|done]. by apply startsWith_true.
    + destruct (firstIndex s needle) as [j|] eqn:Hj; [|done].
      intros [= <-]. destruct (IH j eq_refl) as (pre & post & -> & <-).
      by exists (String c pre), post.
Qed.

(** ... and nothing occurs to the left of it. *)
Lemma firstIndex_minimal (s needle : string) (i : nat) :
  firstIndex s needle = Some i →
  ∀ pre post, s = pre +:+ needle +:+ post → (i ≤ String.length pre)%nat.
Proof.
  revert i. induction s as [|c s IH]; intros i; rewrite firstIndex_unfold.
  - destruct (startsWith "" needle); [|done]. intros [= <-] ??. lia.
  - destruct (startsWith (String c s) needle) eqn:Hp.
    { intros [= <-] ??. lia. }
    destruct (firstIndex s needle) as [j|] eqn:Hj; [|done].
    intros [= <-] pre post Hs. destruct pre as [|d pre].
    + rewrite app_nil in Hs. rewrite Hs, startsWith_app in Hp. done.
    + rewrite app_cons in Hs. injection Hs as -> Hs.
      simpl. apply le_n_S. by eapply IH.
Qed.

Lemma firstIndex_None (s needle : string) :
  firstIndex s needle = None → Absent needle s.
Proof.
  induction s as [|c s IH]; rewrite firstIndex_unfold; intros Hi pre post Hs.
  - destruct pre; [|done]. rewrite app_nil in Hs. rewrite Hs, startsWith_app in Hi. done.
  - destruct (startsWith (String c s) needle) eqn:Hp; [done|].
    destruct (firstIndex s needle) eqn:Hj; [done|].
    destruct pre as [|d pre].
    + rewrite app_nil in Hs. rewrite Hs, startsWith_app in Hp. done.
    + rewrite app_cons in Hs. injection Hs as -> Hs. by eapply IH.
Qed.

Lemma firstIndex_FirstOccurrence (s needle : string) (i : nat) :
  firstIndex s needle = Some i →
  FirstOccurrence needle s (take i s) (drop (i + String.length needle) s).
Proof.
  intros Hi. destruct (firstIndex_occurs _ _ _ Hi) as (pre & post & Hs & <-).
  split.
  - rewrite Hs at 2 3. rewrite take_app_length.
    rewrite drop_add_app, drop_app_length. done.
  - intros pre' post' Hs'. rewrite Hs at 1. rewrite take_app_length.
    by eapply firstIndex_minimal.
Qed.

Lemma FirstOccurrence_firstIndex (s needle pre post : string) :
  FirstOccurrence needle s pre post →
  firstIndex s needle = Some (String.length pre).
Proof.
  intros [Hs Hmin]. destruct (firstIndex s needle) as [i|] eqn:Hi.
  - f_equal. apply Nat.le_antisymm.
    + by eapply firstIndex_minimal.
    + destruct (firstIndex_occurs _ _ _ Hi) as (pre' & post' & Hs' & <-). eauto.
  - by apply firstIndex_None in Hi; destruct (Hi pre post).
Qed.

Lemma Absent_firstIndex (s needle : string) :
  Absent needle s → firstIndex s needle = None.
Proof.
  intros Habs. destruct (firstIndex s needle) as [i|] eqn:Hi; [|done].
  destruct (firstIndex_occurs _ _ _ Hi) as (pre & post & Hs & _).
  by destruct (Habs pre post).
Qed.

Lemma indexOf_FirstOccurrence (s needle pre post : string) :
  FirstOccurrence needle s pre post →
  indexOf s needle = Z.of_nat (String.length pre).
Proof. intros H. unfold indexOf. by rewrite (FirstOccurrence_firstIndex _ _ _ _ H). Qed.

Lemma indexOf_Absent (s needle : string) :
  Absent needle s → indexOf s needle = -1.
Proof. intros H. unfold indexOf. by rewrite (Absent_firstIndex _ _ H). Qed.

Lemma getSubstitution_plain (matched before after template : string) :
  contains "$" template = false →
  getSubstitution matched before after template = template.
Proof.
  induction template as [|c t IH]; [done|].
  cbn [getSubstitution contains].
  destruct (Ascii.eqb c "$") eqn:Hc; [done|]. intros Ht.
  f_equal. by apply IH.
Qed.

(** [replace] rewrites the first occurrence of the pattern, wherever it is. *)
Lemma replace_FirstOccurrence (s pattern replacement pre post : string) :
  FirstOccurrence pattern s pre post →
  replace s pattern replacement =
    pre +:+ getSubstitution pattern pre post replacement +:+ post.
Proof.
  intros H. unfold replace. rewrite (FirstOccurrence_firstIndex _ _ _ _ H).
  destruct H as [-> _].
  by rewrite take_app_length, drop_add_app, drop_app_length.
Qed.

Lemma replace_Absent (s pattern replacement : string) :
  Absent pattern s → replace s pattern replacement = s.
Proof. intros H. unfold replace. by rewrite (Absent_firstIndex _ _ H). Qed.

Lemma startsWith_dot_dot (s : string) :
  startsWith s ".." = true → startsWith s "." = true.
Proof.
  destruct s as [|c s]; [done|]. cbn [startsWith].
  destruct (Ascii.eqb "." c); [by destruct s | done].
Qed.

(** [m.indexOf('.') === 0] says that [m] starts with a dot. *)
Lemma indexOf_dot_zero (m : string) :
  (indexOf m "." =? 0) = startsWith m ".".
Proof.
  unfold indexOf. rewrite firstIndex_unfold.
  destruct (startsWith m ".") eqn:Hm; [done|].
  destruct m as [|c m]; [done|].
  by destruct (firstIndex m ".") as [i|].
Qed.

End JsStringFacts.

(** ** Reverse resolution *)

Ltac run_monad :=
  cbv [mbind M_bind bind mret M_ret ret getThis modify lift emit throw tryCatch];
  cbn [fst snd].

Section ReverseResolution.
Import JsString JsStringFacts.
Context {SourceFile C : Type} `{!NgHostContext SourceFile C}.
Variable path : PathModule.

(** The only thing [resolveFileToImport] changes is the context, and only
    by the hint for a file the compiler host does not see. *)
Lemma resolveFileToImport_state (env : Env SourceFile) (i c : string) (this : NgHost) :
  snd (resolveFileToImport path env i c this) =
    if host_fileExists env i then this
    else withContext this (assumeFileExists (context this) i).
Proof.
  unfold resolveFileToImport. run_monad.
  destruct (host_fileExists env i); cbn [negb fst snd];
    repeat match goal with |- context [if ?b then _ else _] => destruct b end;
    reflexivity.
Qed.

Lemma substring_after_occurrence (pre needle post : string) :
  substring (pre +:+ needle +:+ post)
    (Z.of_nat (String.length pre) + Z.of_nat (String.length needle)) = post.
Proof.
  unfold substring. rewrite <- Nat2Z.inj_add, Nat2Z.id.
  by rewrite drop_add_app, drop_app_length.
Qed.

Lemma substring_from_occurrence (pre rest : string) :
  substring (pre +:+ rest) (Z.of_nat (String.length pre)) = rest.
Proof. unfold substring. by rewrite Nat2Z.id, drop_app_length. Qed.

Lemma of_nat_not_minus_one (n : nat) : (Z.of_nat n =? -1) = false.
Proof. apply Z.eqb_neq. lia. Qed.

(** C2 (as the code has it): when the imported path, once its extension
    is dropped, is not a generated file and has something after its FIRST
    [/node_modules/], reverse resolution returns exactly that remainder,
    whatever the containing file and the layout of the roots; the result
    begins with [./] or [../] only if the remainder itself does. *)
Theorem C2_dependency_import_is_first_module_id
    (env : Env SourceFile) (this : NgHost)
    (importedFile containingFile pre moduleId : string) :
  FirstOccurrence NODE_MODULES (regexReplace EXT importedFile "") pre moduleId →
  moduleId ≠ "" →
  regexTest IS_GENERATED (regexReplace EXT importedFile "") = false →
  fst (resolveFileToImport path env importedFile containingFile this) = inr moduleId ∧
  ∀ r, fst (resolveFileToImport path env importedFile containingFile this) = inr r →
       beginsWithRelativeMarker r = beginsWithRelativeMarker moduleId.
Proof.
  intros Hfirst Hne Hgen.
  assert (fst (resolveFileToImport path env importedFile containingFile this)
          = inr moduleId) as Hres.
  { unfold resolveFileToImport. run_monad.
    rewrite Hgen, (indexOf_FirstOccurrence _ _ _ _ Hfirst), of_nat_not_minus_one.
    destruct Hfirst as [Hs _]. rewrite Hs, substring_after_occurrence.
    assert (truthyString (Some moduleId) = true) as ->.
    { cbn [truthyString]. destruct moduleId; [done|reflexivity]. }
    by destruct (host_fileExists env importedFile). }
  split; [done|]. intros r. rewrite Hres. by intros [= <-].
Qed.

(** C3 (as the code has it): a path with a [/node_modules/] marker is
    joined onto genDir from its first marker on; a path without one has
    the first occurrence of basePath, leading or not, replaced by genDir
    (genDir free of [$]); a path in which basePath does not occur at all
    is returned as it is. *)
Theorem C3_rewriteGenDirPath_relocates (this : NgHost (C:=C)) (filepath : string) :
  (∀ pre post, FirstOccurrence NODE_MODULES filepath pre post →
     rewriteGenDirPath path this filepath =
       path_join path (genDir this) (NODE_MODULES +:+ post)) ∧
  (∀ pre post, Absent NODE_MODULES filepath →
     FirstOccurrence (basePath this) filepath pre post →
     contains "$" (genDir this) = false →
     rewriteGenDirPath path this filepath = pre +:+ genDir this +:+ post) ∧
  (Absent NODE_MODULES filepath → Absent (basePath this) filepath →
     rewriteGenDirPath path this filepath = filepath).
Proof.
  unfold rewriteGenDirPath. repeat split.
  - intros pre post Hfirst.
    rewrite (indexOf_FirstOccurrence _ _ _ _ Hfirst), of_nat_not_minus_one.
    destruct Hfirst as [-> _]. cbn [negb]. by rewrite substring_from_occurrence.
  - intros pre post Hno Hfirst Hplain. rewrite (indexOf_Absent _ _ Hno).
    cbn [negb Z.eqb]. rewrite (replace_FirstOccurrence _ _ _ _ _ Hfirst).
    by rewrite getSubstitution_plain.
  - intros Hno Hnobase. rewrite (indexOf_Absent _ _ Hno). cbn [negb Z.eqb].
    by apply replace_Absent.
Qed.

(** C9: the specifier returned by [resolveFileToImport] is a function of
    the two paths and of basePath, genDir and isGenDirChildOfRootDir.  Two
    hosts with the same three settings return the same specifier for the
    same arguments, whatever their compiler hosts, contexts and caches
    say; each run changes nothing but its context, and that only by the
    hint for an imported file its compiler host does not see. *)
Theorem C9_specifier_independent_of_filesystem
    (env1 env2 : Env SourceFile) (this1 this2 : NgHost)
    (importedFile containingFile : string) :
  basePath this1 = basePath this2 →
  genDir this1 = genDir this2 →
  isGenDirChildOfRootDir this1 = isGenDirChildOfRootDir this2 →
  fst (resolveFileToImport path env1 importedFile containingFile this1) =
    fst (resolveFileToImport path env2 importedFile containingFile this2) ∧
  (∃ r, fst (resolveFileToImport path env1 importedFile containingFile this1) = inr r) ∧
  snd (resolveFileToImport path env1 importedFile containingFile this1) =
    (if host_fileExists env1 importedFile then this1
     else withContext this1 (assumeFileExists (context this1) importedFile)) ∧
  snd (resolveFileToImport path env2 importedFile containingFile this2) =
    (if host_fileExists env2 importedFile then this2
     else withContext this2 (assumeFileExists (context this2) importedFile)).
Proof.
  intros Hbase Hgen Hchild.
  split; [|split; [|split; apply resolveFileToImport_state]].
  - unfold resolveFileToImport. cbv [rewriteGenDirPath]. run_monad.
    destruct (host_fileExists env1 importedFile),
      (host_fileExists env2 importedFile);
      cbn [negb fst snd withContext genDir basePath isGenDirChildOfRootDir];
      rewrite Hbase, Hgen, Hchild;
      repeat match goal with |- context [if ?b then _ else _] => destruct b end;
      reflexivity.
  - unfold resolveFileToImport. run_monad.
    destruct (host_fileExists env1 importedFile); cbn [negb fst snd];
      repeat match goal with |- context [if ?b then _ else _] => destruct b end;
      eexists; reflexivity.
Qed.

End ReverseResolution.

(** ** Forward resolution *)

Section ForwardResolution.
Import JsString JsStringFacts.
Context {SourceFile C : Type} `{!NgHostContext SourceFile C}.
Variable path : PathModule.
Variable lib : Externals SourceFile.

(** Every specifier with a relative-path marker begins with a dot. *)
Lemma relative_marker_begins_with_dot (m : string) :
  beginsWithRelativeMarker m = true → startsWith m "." = true.
Proof.
  unfold beginsWithRelativeMarker. destruct m as [|c m]; cbn [startsWith orb].
  - done.
  - destruct (Ascii.eqb "." c); cbn [orb]; [by destruct m|done].
Qed.

Lemma resolveImportToFile_state (env : Env SourceFile) (m : string)
    (containingFile : option string) (this : NgHost) :
  snd (resolveImportToFile path lib env m containingFile this) = this.
Proof.
  unfold resolveImportToFile. run_monad.
  destruct containingFile as [cf|]; repeat case_match; simplify_eq/=; reflexivity.
Qed.

(** C7 (as the code has it): without a containing file ([undefined],
    [null] or the empty string), [resolveImportToFile] throws 'Resolution
    of relative paths requires a containing file.' exactly when the
    specifier begins with a dot, which every specifier with a [./] or [../]
    in front does; otherwise it resolves the specifier, its extension
    dropped, from the file [index.ts] joined onto basePath, and returns
    what the resolver found.  The host is left as it was. *)
Theorem C7_leading_dot_needs_containing_file
    (env : Env SourceFile) (this : NgHost) (m : string)
    (containingFile : option string) :
  containingFile = None ∨ containingFile = Some "" →
  resolveImportToFile path lib env m containingFile this =
    (if startsWith m "."
     then (inl RelativeWithoutContainingFile, this)
     else (inr (resolveModuleName lib (regexReplace EXT m "")
                  (replaceBackslashes (path_join path (basePath this) "index.ts"))
                  (options this) (moduleResolutionHost env (context this))),
           this)) ∧
  (beginsWithRelativeMarker m = true →
   resolveImportToFile path lib env m containingFile this =
     (inl RelativeWithoutContainingFile, this)).
Proof.
  intros Hmissing.
  assert (resolveImportToFile path lib env m containingFile this =
            (if startsWith m "."
             then (inl RelativeWithoutContainingFile, this)
             else (inr (resolveModuleName lib (regexReplace EXT m "")
                          (replaceBackslashes (path_join path (basePath this) "index.ts"))
                          (options this) (moduleResolutionHost env (context this))),
                   this))) as Hresult.
  { rewrite <- indexOf_dot_zero. unfold resolveImportToFile. run_monad.
    destruct Hmissing as [-> | ->]; cbn [String.eqb orb];
      by destruct (indexOf m "." =? 0). }
  split; [done|]. intros Hrelative.
  by rewrite Hresult, (relative_marker_begins_with_dot _ Hrelative).
Qed.

End ForwardResolution.

(** ** Metadata lookup and its cache *)

Section Metadata.
Import JsString JsStringFacts.
Context {SourceFile C : Type} `{!NgHostContext SourceFile C}.
Variable path : PathModule.
Variable lib : Externals SourceFile.

Lemma readMetadata_keeps (env : Env SourceFile) (f : string) (this : NgHost) :
  keepsContextAndCache this (snd (readMetadata lib env f this)).
Proof.
  unfold keepsContextAndCache, readMetadata, parseFile, contextReadFile. run_monad.
  repeat case_match; simplify_eq/=; done.
Qed.

Lemma getMetadataFor_keeps (env : Env SourceFile) (f : string) (this : NgHost) :
  keepsContextAndCache this (snd (getMetadataFor lib env f this)).
Proof.
  unfold keepsContextAndCache, getMetadataFor, readMetadata, parseFile,
    contextReadFile, collect.
  run_monad. repeat case_match; simplify_eq/=; done.
Qed.

Lemma loadResource_state (env : Env SourceFile) (f : string) (this : NgHost) :
  snd (loadResource env f this) = this.
Proof. reflexivity. Qed.

(** A lookup through the cache answers from it when it holds a truthy
    value, and touches nothing. *)
Lemma getResolverMetadata_hit (env : Env SourceFile) (f : string)
    (this : NgHost) (m : Metadata) :
  cacheGet (resolverCache this) f = m → truthy m = true →
  getResolverMetadata lib env f this = (inr m, this).
Proof.
  intros Hget Hm. unfold getResolverMetadata. run_monad.
  by rewrite Hget, Hm.
Qed.

(** Otherwise it asks [getMetadataFor] and, unless that throws, stores the
    answer under the path. *)
Lemma getResolverMetadata_cache (env : Env SourceFile) (f : string) (this : NgHost) :
  let this' := snd (getResolverMetadata lib env f this) in
  context this' = context this ∧
  (resolverCache this' = resolverCache this ∨
   truthy (cacheGet (resolverCache this) f) = false ∧
   ∃ m, resolverCache this' = <[f := m]> (resolverCache this)).
Proof.
  unfold getResolverMetadata. run_monad.
  destruct (truthy (cacheGet (resolverCache this) f)) eqn:Hhit; cbn [negb].
  { auto. }
  destruct (getMetadataFor_keeps env f this) as [Hctx Hcache].
  destruct (getMetadataFor lib env f this) as [[e|m] this1]; cbn [snd] in *.
  { auto. }
  split; [done|]. right. split; [done|]. exists m. by rewrite Hcache.
Qed.

Lemma after_context (env : Env SourceFile) (call : Call) (this : NgHost) :
  context (after path lib env call this) = context this ∨
  ∃ f, context (after path lib env call this) = assumeFileExists (context this) f.
Proof.
  destruct call; cbn [after].
  - left. by rewrite resolveImportToFile_state.
  - rewrite resolveFileToImport_state. destruct (host_fileExists env importedFile); eauto.
  - left. apply getMetadataFor_keeps.
  - left. apply readMetadata_keeps.
  - by left.
  - left. apply getResolverMetadata_cache.
  - eauto.
Qed.

Lemma after_cache (env : Env SourceFile) (call : Call) (this : NgHost) :
  resolverCache (after path lib env call this) = resolverCache this ∨
  ∃ f m, truthy (cacheGet (resolverCache this) f) = false ∧
         resolverCache (after path lib env call this) = <[f := m]> (resolverCache this).
Proof.
  destruct call; cbn [after].
  - left. by rewrite resolveImportToFile_state.
  - left. rewrite resolveFileToImport_state. by destruct (host_fileExists env importedFile).
  - left. apply getMetadataFor_keeps.
  - left. apply readMetadata_keeps.
  - by left.
  - destruct (getResolverMetadata_cache env filePath this) as [_ [?|[? [m ?]]]]; eauto.
  - by left.
Qed.

(** A truthy cache entry survives every call. *)
Lemma after_keeps_truthy_entry (env : Env SourceFile) (call : Call)
    (this : NgHost) (f : string) :
  truthy (cacheGet (resolverCache this) f) = true →
  cacheGet (resolverCache (after path lib env call this)) f =
    cacheGet (resolverCache this) f.
Proof.
  intros Hf. destruct (after_cache env call this) as [->|(g & m & Hg & ->)]; [done|].
  unfold cacheGet. destruct (decide (g = f)) as [->|Hne].
  - unfold cacheGet in *. congruence.
  - by rewrite lookup_insert_ne.
Qed.

Lemma run_keeps_truthy_entry (calls : list (Env SourceFile * Call))
    (this : NgHost) (f : string) :
  truthy (cacheGet (resolverCache this) f) = true →
  cacheGet (resolverCache (run path lib calls this)) f =
    cacheGet (resolverCache this) f.
Proof.
  revert this. induction calls as [|[env call] calls IH]; intros this Hf; [done|].
  cbn [run]. rewrite IH; rewrite after_keeps_truthy_entry; done.
Qed.

(** Nothing but [getResolverMetadata] writes the cache: an instance the
    driver made and used through the public methods has an empty one. *)
Lemma public_run_leaves_cache_empty (calls : list (Env SourceFile * Call))
    (this : NgHost) :
  forallb (λ c, isPublicCall c.2) calls = true →
  resolverCache (run path lib calls this) = resolverCache this.
Proof.
  revert this. induction calls as [|[env call] calls IH]; intros this Hpub; [done|].
  cbn [forallb snd] in Hpub. apply andb_true_iff in Hpub as [Hcall Hcalls].
  cbn [run]. rewrite IH by done. destruct call; cbn [after]; try done.
  - by rewrite resolveImportToFile_state.
  - rewrite resolveFileToImport_state. by destruct (host_fileExists env importedFile).
  - apply getMetadataFor_keeps.
  - apply readMetadata_keeps.
Qed.

(** C6 (as the code has it): a lookup through [getResolverMetadata] that
    yields a present (truthy) metadata value leaves it in the cache under
    the path; no later call removes or changes that entry, and every later
    lookup of the path returns the same value and leaves the host, its
    trace of reads and collector calls included, exactly as it found it.
    [getMetadataFor] called directly never writes the cache. *)
Theorem C6_present_metadata_is_memoized
    (env : Env SourceFile) (this this' : NgHost) (filePath : string) (m : Metadata) :
  getResolverMetadata lib env filePath this = (inr m, this') →
  truthy m = true →
  cacheGet (resolverCache this') filePath = m ∧
  ∀ (calls : list (Env SourceFile * Call)) (env' : Env SourceFile),
    let this'' := run path lib calls this' in
    cacheGet (resolverCache this'') filePath = m ∧
    getResolverMetadata lib env' filePath this'' = (inr m, this'') ∧
    resolverCache (snd (getMetadataFor lib env' filePath this'')) = resolverCache this''.
Proof.
  intros Hlookup Hm.
  assert (cacheGet (resolverCache this') filePath = m) as Hstored.
  { revert Hlookup. unfold getResolverMetadata. run_monad.
    destruct (truthy (cacheGet (resolverCache this) filePath)); cbn [negb].
    - by intros [= <- <-].
    - destruct (getMetadataFor lib env filePath this) as [[e|m1] this1]; [done|].
      intros [= <- <-]. cbn [resolverCache withResolverCache].
      unfold cacheGet. by rewrite lookup_insert_eq. }
  split; [done|]. intros calls env' this''.
  assert (cacheGet (resolverCache this'') filePath = m) as Hlater.
  { unfold this''. rewrite run_keeps_truthy_entry; [done|by rewrite Hstored]. }
  split; [done|]. split; [by apply getResolverMetadata_hit|].
  apply getMetadataFor_keeps.
Qed.

(** C8: for a declaration file whose sidecar [.metadata.json] exists, is
    not answered from the cache and parses to the empty array,
    [getMetadataFor] returns [undefined]; and [undefined] is what it
    returns whenever the sidecar does not exist. *)
Theorem C8_empty_sidecar_is_absence
    (env : Env SourceFile) (this : NgHost) (filePath text : string) :
  regexTest DTS filePath = true →
  fileExists env (context this) (regexReplace DTS filePath ".metadata.json") = true →
  readFile env (context this) (regexReplace DTS filePath ".metadata.json") = inr text →
  JSON_parse lib text = Some (JArray []) →
  truthy (cacheGet (resolverCache this) (regexReplace DTS filePath ".metadata.json")) = false →
  fst (getMetadataFor lib env filePath this) = inr None ∧
  ∀ (env' : Env SourceFile) (this' : NgHost),
    fileExists env' (context this') (regexReplace DTS filePath ".metadata.json") = false →
    fst (getMetadataFor lib env' filePath this') = inr None.
Proof.
  intros Hdts Hexists Hread Hparse Hcache. split.
  - unfold getMetadataFor, readMetadata, parseFile, contextReadFile. run_monad.
    rewrite Hdts, Hexists.
    destruct (fileExists env (context this) filePath); cbn [negb]; [|done].
    unfold truthy in Hcache.
    destruct (cacheGet _ _) as [cached|]; [rewrite Hcache|];
      cbn [context withTrace]; by rewrite Hread, Hparse.
  - intros env' this' Hmissing.
    unfold getMetadataFor. run_monad. rewrite Hdts, Hmissing.
    by destruct (fileExists env' (context this') filePath).
Qed.

End Metadata.

(** ** The default context *)

Section NodeContext.
Import JsString JsStringFacts.
Context {SourceFile : Type}.
Variable path : PathModule.
Variable lib : Externals SourceFile.

Abbreviation Host := (NgHost (C:=NodeNgHostContext.t)).

Lemma assumeFileExists_lookup (ctx : NodeNgHostContext.t) (f : string) :
  NodeNgHostContext.assumedExists (NodeNgHostContext.assumeFileExists ctx f) !! f
  = Some true.
Proof. apply lookup_insert_eq. Qed.

Lemma assumed_fileExists (env : Env SourceFile) (ctx : NodeNgHostContext.t) (f : string) :
  NodeNgHostContext.assumedExists ctx !! f = Some true →
  NodeNgHostContext.fileExists env ctx f = true.
Proof.
  intros Hf. unfold NodeNgHostContext.fileExists, NodeNgHostContext.assumed.
  by rewrite Hf.
Qed.

(** No call takes a path out of [assumedExists]. *)
Lemma after_keeps_assumed (env : Env SourceFile) (call : Call) (this : Host) (f : string) :
  NodeNgHostContext.assumedExists (context this) !! f = Some true →
  NodeNgHostContext.assumedExists (context (after path lib env call this)) !! f
  = Some true.
Proof.
  intros Hf. destruct (after_context path lib env call this) as [->|[g ->]]; [done|].
  cbn [assumeFileExists NodeNgHostContext_context].
  unfold NodeNgHostContext.assumeFileExists. cbn [NodeNgHostContext.assumedExists].
  destruct (decide (g = f)) as [->|Hne].
  - apply lookup_insert_eq.
  - by rewrite lookup_insert_ne.
Qed.

Lemma run_keeps_assumed (calls : list (Env SourceFile * Call)) (this : Host) (f : string) :
  NodeNgHostContext.assumedExists (context this) !! f = Some true →
  NodeNgHostContext.assumedExists (context (run path lib calls this)) !! f
  = Some true.
Proof.
  revert this. induction calls as [|[env call] calls IH]; intros this Hf; [done|].
  cbn [run]. by apply IH, after_keeps_assumed.
Qed.

(** C4: reverse resolution of an imported file that the compiler host
    does not see records that very path in [assumedExists]; from then on,
    after any further calls and whatever the compiler host answers (no file
    need ever be written), the path is still recorded and [fileExists] of
    the context returns [true] for it. *)
Theorem C4_missing_import_is_assumed_to_exist
    (env : Env SourceFile) (this : Host) (importedFile containingFile : string) :
  host_fileExists env importedFile = false →
  let this' := snd (resolveFileToImport path env importedFile containingFile this) in
  NodeNgHostContext.assumedExists (context this') !! importedFile = Some true ∧
  ∀ (calls : list (Env SourceFile * Call)) (env' : Env SourceFile),
    let this'' := run path lib calls this' in
    NodeNgHostContext.assumedExists (context this'') !! importedFile = Some true ∧
    fileExists env' (context this'') importedFile = true.
Proof.
  intros Hmissing this'.
  assert (NodeNgHostContext.assumedExists (context this') !! importedFile = Some true)
    as Hrecorded.
  { unfold this'. rewrite resolveFileToImport_state, Hmissing.
    apply assumeFileExists_lookup. }
  split; [done|]. intros calls env' this''.
  assert (NodeNgHostContext.assumedExists (context this'') !! importedFile = Some true)
    as Hlater by by apply run_keeps_assumed.
  split; [done|]. by apply assumed_fileExists.
Qed.

(** C5 (as the code has it): [getMetadataFor] returns [undefined], throws
    nothing and changes nothing for every path for which [fileExists] of
    the context is false; and for an ordinary source file that is neither
    in the program nor on disk it returns [undefined] when
    [this.assumedExists[filePath]] is not truthy, and fails reading the file
    when it is (the path was assumed to exist, or is a name the object
    inherits). *)
Theorem C5_metadata_absence_and_errors
    (env : Env SourceFile) (this : Host) (filePath : string) :
  (fileExists env (context this) filePath = false →
     getMetadataFor lib env filePath this = (inr None, this)) ∧
  (regexTest DTS filePath = false →
   program_getSourceFile env filePath = None →
   host_fileExists env filePath = false →
   fs_readFileSync env filePath = None →
     fst (getMetadataFor lib env filePath this) =
       if NodeNgHostContext.assumed (context this) filePath
       then inl (ReadFileFailed filePath)
       else inr None).
Proof.
  split.
  - intros Hmissing. unfold getMetadataFor. run_monad. by rewrite Hmissing.
  - intros Hdts Hprogram Hhost Hdisk.
    unfold getMetadataFor, contextReadFile. run_monad.
    cbn [fileExists readFile NodeNgHostContext_context].
    unfold NodeNgHostContext.fileExists, NodeNgHostContext.readFile.
    rewrite Hdts, Hprogram, Hhost, orb_false_r.
    destruct (NodeNgHostContext.assumed _ _); cbn [negb context withTrace]; [|done].
    by rewrite Hdisk.
Qed.

(** C10: [readResource] asks the compiler host alone.  For a path that
    was assumed to exist but that the compiler host does not see,
    [fileExists] of the context answers [true] while [loadResource] throws
    'Compilation failed. Resource file not found', and never returns a
    content. *)
Theorem C10_assumed_resource_is_still_not_found
    (env : Env SourceFile) (this : Host) (filePath : string) :
  NodeNgHostContext.assumedExists (context this) !! filePath = Some true →
  host_fileExists env filePath = false →
  fileExists env (context this) filePath = true ∧
  loadResource env filePath this = (inl (ResourceFileNotFound filePath), this).
Proof.
  intros Hassumed Hmissing. split.
  - by apply assumed_fileExists.
  - unfold loadResource. run_monad.
    cbn [readResource NodeNgHostContext_context].
    unfold NodeNgHostContext.readResource. by rewrite Hmissing.
Qed.

End NodeContext.

(** C1 (as the code has it): with basePath [/proj/src] and genDir
    [/proj/src/gen], the import of [/proj/src/app/app.component] from
    [/proj/src/gen/app/app.component.ngfactory] is
    [../../../app/app.component]: the containing file is relocated into
    genDir once more, to [/proj/src/gen/gen/app], and the imported file, an
    ordinary source under a nested genDir, is left where it is. *)
Theorem C1_scenario_specifier {SourceFile C : Type} `{!NgHostContext SourceFile C}
    (cwd : string) (env : Env SourceFile) (ctx : C) :
  let path := Posix.path cwd in
  let this := new path {| opt_basePath := "/proj/src"; opt_genDir := "/proj/src/gen" |} ctx in
  basePath this = "/proj/src" ∧ genDir this = "/proj/src/gen" ∧
  isGenDirChildOfRootDir this = true ∧
  rewriteGenDirPath path this "/proj/src/gen/app/app.component.ngfactory" =
    "/proj/src/gen/gen/app/app.component.ngfactory" ∧
  fst (resolveFileToImport path env "/proj/src/app/app.component"
         "/proj/src/gen/app/app.component.ngfactory" this)
  = inr "../../../app/app.component".
Proof.
  repeat split; try (vm_compute; reflexivity).
  unfold resolveFileToImport. run_monad.
  destruct (host_fileExists env "/proj/src/app/app.component");
    vm_compute; reflexivity.
Qed.

(** C1, as the specification has it, fails: the specifier is not
    [./app.component]. *)
Lemma C1_counterexample :
  fst (resolveFileToImport Sample.path Sample.emptyEnv "/proj/src/app/app.component"
         "/proj/src/gen/app/app.component.ngfactory" (Sample.host Sample.nested))
  ≠ inr "./app.component".
Proof. vm_compute. intros [=]. Qed.

(** C2, as the specification has it, fails on a nested dependency: the
    module id after the LAST marker is [b/index], the host returns what
    follows the first one. *)
Lemma C2_counterexample :
  let importedFile := "/proj/node_modules/a/node_modules/b/index" in
  let result :=
    fst (resolveFileToImport Sample.path Sample.emptyEnv importedFile
           "/proj/src/app/app.component.ngfactory.ts" (Sample.host Sample.nested)) in
  JsString.regexTest IS_GENERATED importedFile = false ∧
  moduleIdAfterLastMarker importedFile = Some "b/index" ∧
  result = inr "a/node_modules/b/index" ∧
  result ≠ inr "b/index".
Proof. vm_compute. repeat split; intros [=]. Qed.

(** C3, as the specification has it, fails: a path that does not start
    with basePath, but contains it further on, is rewritten there. *)
Lemma C3_counterexample :
  let this := Sample.host Sample.sideBySide in
  let filepath := "/x/proj/src/a.ts" in
  JsString.indexOf filepath NODE_MODULES = -1 ∧
  JsString.startsWith filepath (basePath this) = false ∧
  replaceLeadingPrefix filepath (basePath this) (genDir this) = filepath ∧
  rewriteGenDirPath Sample.path this filepath = "/x/out/a.ts" ∧
  rewriteGenDirPath Sample.path this filepath ≠ filepath.
Proof. vm_compute. repeat split; intros [=]. Qed.

(** ** The host on the sample project

    One import for each case of the table above [resolveFileToImport], with
    genDir nested in basePath and with genDir beside it. *)

Example nested_generated_dependency :
  Sample.importFrom Sample.nested "/proj/node_modules/@angular/core/src/x.ngfactory.ts"
    "/proj/src/app/a.ngfactory.ts"
  = inr "../node_modules/@angular/core/src/x.ngfactory".
Proof. reflexivity. Qed.

Example nested_generated_sibling :
  Sample.importFrom Sample.nested "/proj/src/app/b.ngfactory.ts" "/proj/src/app/a.ngfactory.ts"
  = inr "./b.ngfactory".
Proof. reflexivity. Qed.

Example nested_stylesheet_shim :
  Sample.importFrom Sample.nested "/proj/src/app/b.css.shim.ts" "/proj/src/a.ngfactory.ts"
  = inr "./app/b.css.shim".
Proof. reflexivity. Qed.

Example nested_user_code :
  Sample.importFrom Sample.nested "/proj/src/app/b.ts" "/proj/src/app/a.ngfactory.ts"
  = inr "../../app/b".
Proof. reflexivity. Qed.

Example sideBySide_user_code :
  Sample.importFrom Sample.sideBySide "/proj/src/app/b.ts" "/proj/src/app/a.ngfactory.ts"
  = inr "./b".
Proof. reflexivity. Qed.

Example sideBySide_dependency :
  Sample.importFrom Sample.sideBySide "/proj/node_modules/@angular/core/index.d.ts"
    "/proj/src/a.ngfactory.ts"
  = inr "@angular/core/index".
Proof. reflexivity. Qed.

Example dot_file_gets_no_prefix :
  Sample.importFrom Sample.nested "/proj/src/gen/.hidden.ts" "/proj/src/a.ngfactory.ts"
  = inr ".hidden".
Proof. reflexivity. Qed.

Example inherited_name_exists :
  NodeNgHostContext.fileExists Sample.emptyEnv NodeNgHostContext.new "constructor" = true.
Proof. reflexivity. Qed.

Example posix_normalize : Posix.normalize "/a//b/./c/../d/" = "/a/b/d/".
Proof. reflexivity. Qed.

Example posix_relative : Posix.relative "/cwd" "a/b" "a/c/d" = "../c/d".
Proof. reflexivity. Qed.

Example posix_dirname : Posix.dirname "/a//b" = "/a/".
Proof. reflexivity. Qed.

Example string_replace_template :
  JsString.replace "abc" "b" "[$&$$$`$'$1]" = "a[b$ac$1]c".
Proof. reflexivity. Qed.

(** ** The theorems at work on the sample project *)

Lemma C2_witness :
  fst (resolveFileToImport Sample.path Sample.emptyEnv
         "/proj/node_modules/rxjs/Observable.d.ts"
         "/proj/src/app/app.component.ngfactory.ts" (Sample.host Sample.nested))
  = inr "rxjs/Observable".
Proof.
  refine (proj1 (C2_dependency_import_is_first_module_id Sample.path Sample.emptyEnv
            (Sample.host Sample.nested) "/proj/node_modules/rxjs/Observable.d.ts"
            "/proj/src/app/app.component.ngfactory.ts" "/proj" "rxjs/Observable" _ _ _)).
  - exact (JsStringFacts.firstIndex_FirstOccurrence
             "/proj/node_modules/rxjs/Observable" NODE_MODULES 5 eq_refl).
  - discriminate.
  - reflexivity.
Defined.

Lemma C3_witness :
  let this := Sample.host Sample.sideBySide in
  rewriteGenDirPath Sample.path this "/proj/node_modules/rxjs/Rx.d.ts"
    = "/out/node_modules/rxjs/Rx.d.ts" ∧
  rewriteGenDirPath Sample.path this "/proj/src/app/a.ngfactory.ts"
    = "/out/app/a.ngfactory.ts" ∧
  rewriteGenDirPath Sample.path this "/elsewhere/a.ts" = "/elsewhere/a.ts".
Proof.
  pose (this := Sample.host Sample.sideBySide).
  split; [|split].
  - exact (proj1 (C3_rewriteGenDirPath_relocates Sample.path this
                    "/proj/node_modules/rxjs/Rx.d.ts") "/proj" "rxjs/Rx.d.ts"
             (JsStringFacts.firstIndex_FirstOccurrence
                "/proj/node_modules/rxjs/Rx.d.ts" NODE_MODULES 5 eq_refl)).
  - exact (proj1 (proj2 (C3_rewriteGenDirPath_relocates Sample.path this
                           "/proj/src/app/a.ngfactory.ts")) "" "/app/a.ngfactory.ts"
             (JsStringFacts.firstIndex_None
                "/proj/src/app/a.ngfactory.ts" NODE_MODULES eq_refl)
             (JsStringFacts.firstIndex_FirstOccurrence
                "/proj/src/app/a.ngfactory.ts" "/proj/src" 0 eq_refl)
             eq_refl).
  - exact (proj2 (proj2 (C3_rewriteGenDirPath_relocates Sample.path this
                           "/elsewhere/a.ts"))
             (JsStringFacts.firstIndex_None "/elsewhere/a.ts" NODE_MODULES eq_refl)
             (JsStringFacts.firstIndex_None "/elsewhere/a.ts" "/proj/src" eq_refl)).
Defined.

Lemma C4_witness :
  let importedFile := "/proj/src/gen/app/app.component.ngfactory.ts" in
  let this' :=
    snd (resolveFileToImport Sample.path Sample.emptyEnv importedFile
           "/proj/src/app/app.module.ngfactory.ts" (Sample.host Sample.nested)) in
  let calls :=
    [(Sample.env, CallGetMetadataFor "/proj/lib/b.d.ts");
     (Sample.emptyEnv, CallResolveFileToImport "/proj/src/a.ts" importedFile);
     (Sample.env, CallGetResolverMetadata "/proj/lib/c.d.ts")] in
  host_fileExists Sample.emptyEnv importedFile = false ∧
  fileExists Sample.emptyEnv
    (context (run Sample.path Sample.lib calls this')) importedFile = true.
Proof.
  split; [reflexivity|].
  exact (proj2 (proj2 (C4_missing_import_is_assumed_to_exist Sample.path Sample.lib
                         Sample.emptyEnv (Sample.host Sample.nested)
                         "/proj/src/gen/app/app.component.ngfactory.ts"
                         "/proj/src/app/app.module.ngfactory.ts" eq_refl)
                  _ Sample.emptyEnv)).
Defined.

(** C5, as the specification has it, fails: for an ordinary source file
    that is neither in the program nor on disk [getMetadataFor] throws
    nothing, it returns [undefined]. *)
Lemma C5_counterexample :
  let filePath := "/proj/src/missing.ts" in
  JsString.regexTest DTS filePath = false ∧
  program_getSourceFile Sample.emptyEnv filePath = None ∧
  host_fileExists Sample.emptyEnv filePath = false ∧
  fs_readFileSync Sample.emptyEnv filePath = None ∧
  fst (getMetadataFor Sample.lib Sample.emptyEnv filePath (Sample.host Sample.nested))
  = inr None.
Proof. vm_compute. repeat split. Qed.

Lemma C5_witness :
  let this := Sample.host Sample.nested in
  let assumed :=
    withContext this (NodeNgHostContext.assumeFileExists (context this) "/proj/src/missing.ts") in
  getMetadataFor Sample.lib Sample.emptyEnv "/proj/src/missing.ts" this = (inr None, this) ∧
  fst (getMetadataFor Sample.lib Sample.emptyEnv "/proj/src/missing.ts" assumed)
  = inl (ReadFileFailed "/proj/src/missing.ts").
Proof.
  split.
  - exact (proj1 (C5_metadata_absence_and_errors Sample.lib Sample.emptyEnv
                    (Sample.host Sample.nested) "/proj/src/missing.ts") eq_refl).
  - exact (proj2 (C5_metadata_absence_and_errors Sample.lib Sample.emptyEnv
                           (withContext (Sample.host Sample.nested)
                              (NodeNgHostContext.assumeFileExists
                                 (context (Sample.host Sample.nested))
                                 "/proj/src/missing.ts"))
                           "/proj/src/missing.ts")
             eq_refl eq_refl eq_refl eq_refl).
Defined.

(** C6, as the specification has it, fails: the collector reports nothing
    for [/proj/src/a.ts], [undefined] is what gets stored, and the second
    lookup reads the file and runs the collector again. *)
Lemma C6_counterexample :
  let filePath := "/proj/src/a.ts" in
  let first := getResolverMetadata Sample.lib Sample.env filePath (Sample.host Sample.nested) in
  let second := getResolverMetadata Sample.lib Sample.env filePath (snd first) in
  fst first = inr None ∧
  resolverCache (snd first) !! filePath = Some None ∧
  trace (snd first) = [ReadFile filePath; CollectMetadata filePath] ∧
  fst second = inr None ∧
  trace (snd second) =
    [ReadFile filePath; CollectMetadata filePath;
     ReadFile filePath; CollectMetadata filePath].
Proof. vm_compute. repeat split. Qed.

Lemma C6_witness :
  let filePath := "/proj/lib/c.d.ts" in
  let this' :=
    withTrace
      (withResolverCache (Sample.host Sample.nested) {[ filePath := Some (JObject []) ]})
      [ReadFile "/proj/lib/c.metadata.json"; ParseJson "/proj/lib/c.metadata.json"] in
  getResolverMetadata Sample.lib Sample.env filePath (Sample.host Sample.nested)
    = (inr (Some (JObject [])), this') ∧
  getResolverMetadata Sample.lib Sample.emptyEnv filePath
    (run Sample.path Sample.lib
       [(Sample.env, CallGetResolverMetadata "/proj/src/a.ts");
        (Sample.env, CallGetMetadataFor filePath)] this')
    = (inr (Some (JObject [])),
       run Sample.path Sample.lib
         [(Sample.env, CallGetResolverMetadata "/proj/src/a.ts");
          (Sample.env, CallGetMetadataFor filePath)] this').
Proof.
  assert (getResolverMetadata Sample.lib Sample.env "/proj/lib/c.d.ts"
            (Sample.host Sample.nested)
          = (inr (Some (JObject [])),
             withTrace
               (withResolverCache (Sample.host Sample.nested)
                  {[ "/proj/lib/c.d.ts" := Some (JObject []) ]})
               [ReadFile "/proj/lib/c.metadata.json";
                ParseJson "/proj/lib/c.metadata.json"])) as Hfirst
    by (vm_compute; reflexivity).
  split; [exact Hfirst|].
  exact (proj1 (proj2 (proj2 (C6_present_metadata_is_memoized Sample.path Sample.lib
                                Sample.env _ _ "/proj/lib/c.d.ts" _ Hfirst eq_refl)
                         _ Sample.emptyEnv))).
Defined.

(** C7, as the specification has it, fails: [.bin/tool] has neither [./]
    nor [../] in front, it is not a relative specifier, and without a
    containing file it is refused like one. *)
Lemma C7_counterexample :
  beginsWithRelativeMarker ".bin/tool" = false ∧
  fst (resolveImportToFile Sample.path Sample.lib Sample.env ".bin/tool" None
         (Sample.host Sample.nested))
  = inl RelativeWithoutContainingFile.
Proof. vm_compute. by split. Qed.

Lemma C7_witness :
  let this := Sample.host Sample.nested in
  resolveImportToFile Sample.path Sample.lib Sample.env "./app.component" None this
    = (inl RelativeWithoutContainingFile, this) ∧
  resolveImportToFile Sample.path Sample.lib Sample.env "rxjs/Observable.js" (Some "") this
    = (inr (Some "/proj/node_modules/rxjs/Observable.d.ts"), this).
Proof.
  split.
  - exact (proj2 (C7_leading_dot_needs_containing_file Sample.path Sample.lib Sample.env
                    (Sample.host Sample.nested) "./app.component" None
                    (or_introl eq_refl))
             eq_refl).
  - exact (proj1 (C7_leading_dot_needs_containing_file Sample.path Sample.lib Sample.env
                    (Sample.host Sample.nested) "rxjs/Observable.js" (Some "")
                    (or_intror eq_refl))).
Defined.

Lemma C8_witness :
  fst (getMetadataFor Sample.lib Sample.env "/proj/lib/b.d.ts" (Sample.host Sample.nested))
    = inr None ∧
  fst (getMetadataFor Sample.lib Sample.emptyEnv "/proj/lib/b.d.ts"
         (Sample.host Sample.sideBySide))
    = inr None.
Proof.
  pose proof (C8_empty_sidecar_is_absence Sample.lib Sample.env
                (Sample.host Sample.nested) "/proj/lib/b.d.ts" "[]"
                eq_refl eq_refl eq_refl eq_refl eq_refl) as [Hpresent Hmissing].
  split; [exact Hpresent|].
  exact (Hmissing Sample.emptyEnv (Sample.host Sample.sideBySide) eq_refl).
Defined.

Lemma C9_witness :
  let this1 := Sample.host Sample.nested in
  let this2 :=
    run Sample.path Sample.lib
      [(Sample.env, CallGetResolverMetadata "/proj/lib/c.d.ts");
       (Sample.emptyEnv, CallAssumeFileExists "/proj/src/gen/b.ngfactory.ts")] this1 in
  host_fileExists Sample.env "/proj/src/a.ts" = true ∧
  host_fileExists Sample.emptyEnv "/proj/src/a.ts" = false ∧
  fst (resolveFileToImport Sample.path Sample.env "/proj/src/a.ts"
         "/proj/src/b.ngfactory.ts" this1)
  = fst (resolveFileToImport Sample.path Sample.emptyEnv "/proj/src/a.ts"
           "/proj/src/b.ngfactory.ts" this2).
Proof.
  split; [reflexivity|]. split; [reflexivity|].
  exact (proj1 (C9_specifier_independent_of_filesystem Sample.path
                  Sample.env Sample.emptyEnv (Sample.host Sample.nested) _
                  "/proj/src/a.ts" "/proj/src/b.ngfactory.ts"
                  eq_refl eq_refl eq_refl)).
Defined.

Lemma C10_witness :
  let filePath := "/proj/src/app/app.component.html" in
  let this :=
    withContext (Sample.host Sample.nested)
      (NodeNgHostContext.assumeFileExists (context (Sample.host Sample.nested)) filePath) in
  host_fileExists Sample.emptyEnv filePath = false ∧
  fileExists Sample.emptyEnv (context this) filePath = true ∧
  loadResource Sample.emptyEnv filePath this = (inl (ResourceFileNotFound filePath), this).
Proof.
  split; [reflexivity|].
  exact (C10_assumed_resource_is_still_not_found Sample.emptyEnv
           (withContext (Sample.host Sample.nested)
              (NodeNgHostContext.assumeFileExists (context (Sample.host Sample.nested))
                 "/proj/src/app/app.component.html"))
           "/proj/src/app/app.component.html" eq_refl eq_refl).
Defined.

(** * Further properties of the host *)

(** ** The regular expressions [EXT], [DTS] and [IS_GENERATED] *)

Module RegexFacts.
Import JsString JsStringFacts.

Lemma regexIndex_unfold (re : SuffixRegex) (s : string) :
  regexIndex re s =
    if existsb (String.eqb s) re then Some 0%nat
    else match s with
         | "" => None
         | String _ s' => S <$> regexIndex re s'
         end.
Proof. by destruct s. Qed.

Lemma existsb_eqb (re : SuffixRegex) (s : string) :
  existsb (String.eqb s) re = true ↔ In s re.
Proof.
  rewrite existsb_exists. split.
  - intros (a & Ha & Heq). by apply String.eqb_eq in Heq as ->.
  - intros Hs. exists s. by rewrite String.eqb_refl.
Qed.

(** An extension that no alternative merely ends with is found where it
    starts. *)
Lemma regexIndex_suffix (re : SuffixRegex) (base a : string) :
  In a re →
  (∀ r b, r ≠ "" → In b re → b ≠ r +:+ a) →
  regexIndex re (base +:+ a) = Some (String.length base).
Proof.
  intros Ha Hproper. induction base as [|c base IH]; rewrite regexIndex_unfold.
  - rewrite app_nil. by apply existsb_eqb in Ha as ->.
  - destruct (existsb _ re) eqn:Hhit.
    + apply existsb_eqb in Hhit. by destruct (Hproper (String c base) _ ltac:(done) Hhit).
    + rewrite app_cons, IH. done.
Qed.

Lemma regexReplace_suffix (re : SuffixRegex) (base a replacement : string) :
  In a re →
  (∀ r b, r ≠ "" → In b re → b ≠ r +:+ a) →
  regexReplace re (base +:+ a) replacement = base +:+ replacement.
Proof.
  intros Ha Hproper. unfold regexReplace.
  by rewrite (regexIndex_suffix _ _ _ Ha Hproper), take_app_length.
Qed.

(** [b = r +:+ a] with [r] not empty can be refuted by looking at the end
    of [b]. *)
Lemma proper_suffix_check (r a b : string) :
  r ≠ "" → b = r +:+ a →
  (String.length a < String.length b)%nat ∧
  drop (String.length b - String.length a) b = a.
Proof.
  intros Hr ->. rewrite length_app. split.
  - destruct r; [done|]. simpl. lia.
  - replace (String.length r + String.length a - String.length a)%nat
      with (String.length r) by lia.
    apply drop_app_length.
Qed.

Ltac no_proper_suffix :=
  let r := fresh "r" in let b := fresh "b" in
  let Hr := fresh "Hr" in let Hb := fresh "Hb" in let Heq := fresh "Heq" in
  intros r b Hr Hb Heq;
  destruct (proper_suffix_check _ _ _ Hr Heq) as [Hlen Hend];
  cbn [In] in Hb;
  repeat (destruct Hb as [<-|Hb]; [vm_compute in Hlen, Hend; first [lia | discriminate]|]);
  done.

(** [re.test(s)] holds exactly for the inputs that end with an alternative. *)
Lemma regexTest_true (re : SuffixRegex) (s : string) :
  regexTest re s = true ↔ ∃ pre a, In a re ∧ s = pre +:+ a.
Proof.
  unfold regexTest. induction s as [|c s IH]; rewrite regexIndex_unfold.
  - destruct (existsb _ re) eqn:Hhit.
    + apply existsb_eqb in Hhit. split; [|done]. intros _. by exists "", "".
    + split; [done|]. intros (pre & a & Ha & Hs).
      destruct pre; [|done]. rewrite app_nil in Hs. subst a.
      apply existsb_eqb in Ha. congruence.
  - destruct (existsb _ re) eqn:Hhit.
    + apply existsb_eqb in Hhit. split; [|done]. intros _. by exists "", (String c s).
    + destruct (regexIndex re s) as [i|] eqn:Hi; cbn [fmap option_fmap option_map].
      * split; [|done]. intros _. destruct (proj1 IH eq_refl) as (pre & a & Ha & ->).
        by exists (String c pre), a.
      * split; [done|]. intros (pre & a & Ha & Hs). destruct pre as [|d pre].
        -- rewrite app_nil in Hs. subst a. apply existsb_eqb in Ha. congruence.
        -- rewrite app_cons in Hs. injection Hs as -> ->.
           assert (false = true) as ?; [|done]. apply IH. eauto.
Qed.

Lemma contains_app (c : ascii) (s t : string) :
  contains c (s +:+ t) = contains c s || contains c t.
Proof.
  induction s as [|d s IH]; [done|]. rewrite app_cons. cbn [contains].
  by rewrite IH, orb_assoc.
Qed.

(** A tail without [/] of a path lies within the last segment. *)
Lemma suffix_within_last_segment (p a q m : string) :
  p +:+ a = q +:+ String "/" m → contains "/" a = false →
  ∃ p', m = p' +:+ a.
Proof.
  revert q. induction p as [|c p IH]; intros q Heq Ha.
  - rewrite app_nil in Heq. subst a. rewrite contains_app in Ha.
    cbn [contains] in Ha. rewrite Ascii.eqb_refl in Ha.
    by rewrite orb_true_r in Ha.
  - destruct q as [|d q].
    + rewrite app_nil, app_cons in Heq. injection Heq as -> <-. eauto.
    + rewrite !app_cons in Heq. injection Heq as -> Heq. by eapply IH.
Qed.

(** Whether a dependency path is a generated file is decided by its module
    id alone. *)
Lemma generated_by_module_id (pre moduleId : string) :
  regexTest IS_GENERATED (pre +:+ NODE_MODULES +:+ moduleId) =
  regexTest IS_GENERATED moduleId.
Proof.
  apply eq_true_iff_eq. rewrite !regexTest_true. split.
  - intros (p & a & Ha & Hs).
    change NODE_MODULES with ("/node_modules" +:+ "/") in Hs.
    rewrite (app_assoc "/node_modules" "/"), <- (app_assoc pre) in Hs.
    change ("/" +:+ moduleId) with (String "/" moduleId) in Hs.
    destruct (suffix_within_last_segment p a _ moduleId (eq_sym Hs)) as [p' ->].
    + cbn [In IS_GENERATED] in Ha.
      by destruct Ha as [<-|[<-|[<-|[]]]].
    + eauto.
  - intros (p & a & Ha & ->). exists (pre +:+ NODE_MODULES +:+ p), a.
    by rewrite !app_assoc.
Qed.

End RegexFacts.

(** ** Extensions *)

Section Extensions.
Import JsString JsStringFacts RegexFacts.
Context {SourceFile C : Type} `{!NgHostContext SourceFile C}.
Variable path : PathModule.

Lemma app_inv_tail (r r' a : string) : r +:+ a = r' +:+ a → r = r'.
Proof.
  revert r'. induction r as [|c r IH]; intros [|d r'] Heq; [done| | |].
  - apply (f_equal String.length) in Heq. rewrite app_nil, length_app in Heq.
    simpl in Heq. lia.
  - apply (f_equal String.length) in Heq. rewrite app_nil, length_app in Heq.
    simpl in Heq. lia.
  - rewrite !app_cons in Heq. injection Heq as -> Heq. f_equal. by apply IH.
Qed.

(** As [regexIndex_suffix], looking only at what [base] really ends with. *)
Lemma regexIndex_suffix_of (re : SuffixRegex) (base a : string) :
  In a re →
  (∀ q r b, r ≠ "" → base = q +:+ r → In b re → b ≠ r +:+ a) →
  regexIndex re (base +:+ a) = Some (String.length base).
Proof.
  intros Ha. induction base as [|c base IH]; intros Hproper;
    rewrite regexIndex_unfold.
  - rewrite app_nil. by apply existsb_eqb in Ha as ->.
  - destruct (existsb _ re) eqn:Hhit.
    + apply existsb_eqb in Hhit.
      by destruct (Hproper "" (String c base) _ ltac:(done) eq_refl Hhit).
    + rewrite app_cons, IH; [done|]. intros q r b Hr -> Hb.
      by apply (Hproper (String c q) r b).
Qed.

Lemma EXT_drops_extension (base ext : string) :
  droppedExtension base ext → regexReplace EXT (base +:+ ext) "" = base.
Proof.
  intros [Hext Hts]. unfold regexReplace.
  rewrite regexIndex_suffix_of; [by rewrite take_app_length, app_nil_r|..].
  - cbn [In] in Hext. destruct Hext as [<-|[<-|[<-|[<-|[<-|[]]]]]]; cbn; auto 6.
  - cbn [In] in Hext. destruct Hext as [<-|[<-|[<-|[<-|[<-|[]]]]]];
      try (intros q r b Hr _; revert r b Hr; no_proper_suffix).
    intros q r b Hr -> Hb Heq. cbn [In EXT] in Hb.
    destruct (proper_suffix_check _ _ _ Hr Heq) as [Hlen Hend].
    destruct Hb as [<-|[<-|[<-|[<-|[<-|[]]]]]];
      try (vm_compute in Hlen, Hend; first [lia | discriminate]).
    change ".d.ts" with (".d" +:+ ".ts") in Heq. apply app_inv_tail in Heq as <-.
    by destruct (Hts eq_refl q).
Qed.

(** X1: a declaration file [base.d.ts], whatever [base] is, matches [DTS],
    has its sidecar at [base.metadata.json], and loses the whole [.d.ts],
    not only the [.ts], when [EXT] is dropped. *)
Theorem X1_declaration_file_paths (base : string) :
  regexTest DTS (base +:+ ".d.ts") = true ∧
  regexReplace DTS (base +:+ ".d.ts") ".metadata.json" = base +:+ ".metadata.json" ∧
  regexReplace EXT (base +:+ ".d.ts") "" = base.
Proof.
  assert (∀ r b, r ≠ "" → In b DTS → b ≠ r +:+ ".d.ts") as Hdts by no_proper_suffix.
  split; [|split].
  - unfold regexTest. rewrite regexIndex_suffix; [done| |done]. cbn. auto.
  - apply regexReplace_suffix; [|done]. cbn. auto.
  - apply EXT_drops_extension. split; [cbn; auto 6|done].
Qed.

(** X2: the specifier [resolveFileToImport] returns for an imported file
    does not depend on which extension it carries: [base.ts], [base.js],
    [base.jsx], [base.tsx] and [base.d.ts] are all imported alike, [.ts]
    being left aside when [base] itself ends in [.d]. *)
Theorem X2_import_ignores_extension
    (env1 env2 : Env SourceFile) (this : NgHost)
    (base ext1 ext2 containingFile : string) :
  droppedExtension base ext1 → droppedExtension base ext2 →
  fst (resolveFileToImport path env1 (base +:+ ext1) containingFile this) =
  fst (resolveFileToImport path env2 (base +:+ ext2) containingFile this).
Proof.
  intros H1 H2. unfold resolveFileToImport. cbv [rewriteGenDirPath]. run_monad.
  rewrite (EXT_drops_extension _ _ H1), (EXT_drops_extension _ _ H2).
  destruct (host_fileExists env1 _), (host_fileExists env2 _);
    cbn [negb fst snd withContext genDir basePath isGenDirChildOfRootDir];
    repeat match goal with |- context [if ?b then _ else _] => destruct b end;
    reflexivity.
Qed.

End Extensions.

(** ** The shape of import specifiers *)

Section Specifiers.
Import JsString JsStringFacts RegexFacts.
Context {SourceFile C : Type} `{!NgHostContext SourceFile C}.
Variable path : PathModule.

Lemma replaceBackslashes_clean (s : string) :
  contains "\" (replaceBackslashes s) = false.
Proof.
  induction s as [|c s IH]; [done|]. cbn [replaceBackslashes contains].
  rewrite IH, orb_false_r. destruct (Ascii.eqb c "\") eqn:Hc; [done|exact Hc].
Qed.

(** [dotRelative] always answers with a leading dot and forward slashes. *)
Lemma dotRelative_dotted (from to : string) :
  startsWith (dotRelative path from to) "." = true ∧
  contains "\" (dotRelative path from to) = false.
Proof.
  unfold dotRelative.
  destruct (startsWith (replaceBackslashes (path_relative path from to)) ".") eqn:Hdot.
  - split; [done|]. apply replaceBackslashes_clean.
  - split; [reflexivity|]. rewrite contains_app, replaceBackslashes_clean. done.
Qed.

Lemma substring_after_index (s needle : string) (i : nat) :
  firstIndex s needle = Some i →
  substring s (Z.of_nat i + Z.of_nat (String.length needle)) =
    drop (i + String.length needle) s.
Proof. intros _. unfold substring. by rewrite <- Nat2Z.inj_add, Nat2Z.id. Qed.

(** X3: [resolveFileToImport] always returns, and what it returns is of one
    of two kinds: a string that begins with a dot and has no backslash
    (what [dotRelative] gives: the relative path as it is when it begins
    with a dot already, be it [..] or a name like [.hidden], and with [./]
    in front otherwise), or, for an imported file that is not generated,
    the text after the first [/node_modules/] of its path without
    extension, which is then not empty. *)
Theorem X3_specifier_is_dotted_or_module_id
    (env : Env SourceFile) (this : NgHost) (importedFile containingFile : string) :
  ∃ r, fst (resolveFileToImport path env importedFile containingFile this) = inr r ∧
       ((startsWith r "." = true ∧ contains "\" r = false) ∨
        (regexTest IS_GENERATED (regexReplace EXT importedFile "") = false ∧
         r ≠ "" ∧
         ∃ pre, FirstOccurrence NODE_MODULES (regexReplace EXT importedFile "") pre r)).
Proof.
  unfold resolveFileToImport. run_monad.
  set (stripped := regexReplace EXT importedFile "").
  destruct (regexTest IS_GENERATED stripped) eqn:Hgen.
  - destruct (truthyString _);
      destruct (host_fileExists env importedFile); cbn [negb fst snd];
      eexists; (split; [reflexivity|]); left; apply dotRelative_dotted.
  - unfold indexOf. destruct (firstIndex stripped NODE_MODULES) as [i|] eqn:Hi.
    + rewrite of_nat_not_minus_one. cbn [truthyString].
      unfold default, from_option, id.
      rewrite (substring_after_index _ _ _ Hi).
      destruct (String.eqb (drop (i + String.length NODE_MODULES) stripped) "") eqn:He;
        cbn [negb].
      * destruct (host_fileExists env importedFile); cbn [negb fst snd];
          eexists; (split; [reflexivity|]); left; apply dotRelative_dotted.
      * destruct (host_fileExists env importedFile); cbn [negb fst snd];
          eexists; (split; [reflexivity|]); right;
          (split; [done|]); (split; [intros Hr; rewrite Hr in He; done|]);
          exists (take i stripped); by apply firstIndex_FirstOccurrence.
    + cbn [Z.eqb truthyString].
      destruct (host_fileExists env importedFile); cbn [negb fst snd];
        eexists; (split; [reflexivity|]); left; apply dotRelative_dotted.
Qed.

(** X4: where the dependency directory lies does not matter.  Two imported
    files with the same non-empty module id after their first
    [/node_modules/] get the same specifier, generated or not, from the
    same containing file. *)
Theorem X4_dependency_location_is_irrelevant
    (env1 env2 : Env SourceFile) (this : NgHost)
    (imported1 imported2 containingFile pre1 pre2 moduleId : string) :
  FirstOccurrence NODE_MODULES (regexReplace EXT imported1 "") pre1 moduleId →
  FirstOccurrence NODE_MODULES (regexReplace EXT imported2 "") pre2 moduleId →
  moduleId ≠ "" →
  fst (resolveFileToImport path env1 imported1 containingFile this) =
  fst (resolveFileToImport path env2 imported2 containingFile this).
Proof.
  intros H1 H2 Hne. unfold resolveFileToImport. run_monad.
  rewrite (indexOf_FirstOccurrence _ _ _ _ H1), (indexOf_FirstOccurrence _ _ _ _ H2).
  rewrite !of_nat_not_minus_one.
  destruct H1 as [-> _], H2 as [-> _].
  rewrite !substring_after_occurrence, !generated_by_module_id.
  assert (truthyString (Some moduleId) = true) as ->.
  { cbn [truthyString]. destruct moduleId; [done|reflexivity]. }
  destruct (regexTest IS_GENERATED moduleId);
    destruct (host_fileExists env1 imported1), (host_fileExists env2 imported2);
    reflexivity.
Qed.

Lemma firstIndex_prefix (s p : string) :
  startsWith s p = true → firstIndex s p = Some 0%nat.
Proof. intros Hp. by rewrite firstIndex_unfold, Hp. Qed.

Lemma replace_prefix (p rest replacement : string) :
  contains "$" replacement = false →
  replace (p +:+ rest) p replacement = replacement +:+ rest.
Proof.
  intros Hplain. unfold replace.
  rewrite (firstIndex_prefix _ _ (startsWith_app p rest)).
  cbn [take Nat.add]. rewrite drop_app_length, app_nil.
  by rewrite getSubstitution_plain.
Qed.

(** X5: relocation is not idempotent when genDir lies inside basePath.  A
    path under basePath is moved under genDir; the result, still under
    basePath, is moved again, one level of genDir deeper.  (No
    [/node_modules/] in the paths, no [$] in genDir.) *)
Theorem X5_nested_genDir_relocates_twice
    (this : NgHost (C:=C)) (inner rest : string) :
  genDir this = basePath this +:+ inner →
  contains "$" (genDir this) = false →
  Absent NODE_MODULES (basePath this +:+ rest) →
  Absent NODE_MODULES (genDir this +:+ rest) →
  rewriteGenDirPath path this (basePath this +:+ rest) = genDir this +:+ rest ∧
  rewriteGenDirPath path this (genDir this +:+ rest) = genDir this +:+ inner +:+ rest.
Proof.
  intros Hnested Hplain Hsrc Hgen. unfold rewriteGenDirPath.
  rewrite (indexOf_Absent _ _ Hsrc), (indexOf_Absent _ _ Hgen). cbn [negb Z.eqb].
  split; [by apply replace_prefix|].
  assert (genDir this +:+ rest = basePath this +:+ inner +:+ rest) as ->
    by (by rewrite Hnested, app_assoc).
  by apply replace_prefix.
Qed.

End Specifiers.

(** ** Forward resolution with a containing file *)

Section ForwardResolutionErrors.
Import JsString JsStringFacts.
Context {SourceFile C : Type} `{!NgHostContext SourceFile C}.
Variable path : PathModule.
Variable lib : Externals SourceFile.

(** X6: [resolveImportToFile] never changes the host; with a containing
    file that is not empty it never throws, also for a relative specifier,
    and returns what the resolver finds from that file, backslashes turned
    into slashes; and the one error it can throw is the one about relative
    paths, for a specifier with a leading dot and no containing file. *)
Theorem X6_resolveImportToFile_errors
    (env : Env SourceFile) (this : NgHost) (m : string)
    (containingFile : option string) :
  snd (resolveImportToFile path lib env m containingFile this) = this ∧
  (∀ cf, containingFile = Some cf → cf ≠ "" →
     fst (resolveImportToFile path lib env m containingFile this) =
       inr (resolveModuleName lib (regexReplace EXT m "") (replaceBackslashes cf)
              (options this) (moduleResolutionHost env (context this)))) ∧
  (∀ e, fst (resolveImportToFile path lib env m containingFile this) = inl e →
     e = RelativeWithoutContainingFile ∧ startsWith m "." = true ∧
     (containingFile = None ∨ containingFile = Some "")).
Proof.
  split; [apply resolveImportToFile_state|]. split.
  - intros cf -> Hcf. unfold resolveImportToFile. run_monad.
    destruct cf as [|c cf]; [done|]. reflexivity.
  - intros e. unfold resolveImportToFile. run_monad.
    rewrite indexOf_dot_zero.
    destruct containingFile as [[|c cf]|]; cbn [String.eqb orb String.length Nat.eqb];
      destruct (startsWith m "."); cbn [fst]; intros [=]; subst; auto.
Qed.

End ForwardResolutionErrors.

(** ** Metadata lookup, case by case *)

Ltac trace_added :=
  eexists; split;
  [ rewrite <- ?(assoc_L (++)); first [reflexivity | symmetry; apply app_nil_r]
  | repeat first [apply Forall_nil_2 | apply Forall_cons_2 | apply Forall_app_2]; auto ].

Section MetadataCases.
Import JsString RegexFacts.
Context {SourceFile C : Type} `{!NgHostContext SourceFile C}.
Variable path : PathModule.
Variable lib : Externals SourceFile.

Lemma regexIndex_Some (re : SuffixRegex) (s : string) (i : nat) :
  regexIndex re s = Some i → In (drop i s) re ∧ take i s +:+ drop i s = s.
Proof.
  revert i. induction s as [|c s IH]; intros i; rewrite regexIndex_unfold.
  - destruct (existsb _ re) eqn:Hhit; [|done]. intros [= <-].
    by apply existsb_eqb in Hhit.
  - destruct (existsb _ re) eqn:Hhit.
    + intros [= <-]. by apply existsb_eqb in Hhit.
    + destruct (regexIndex re s) as [j|]; [|done]. intros [= <-].
      destruct (IH j eq_refl) as [Hin Hs]. cbn [drop take].
      split; [done|]. by rewrite JsStringFacts.app_cons, Hs.
Qed.

Lemma app_inv_head (p a b : string) : p +:+ a = p +:+ b → a = b.
Proof.
  induction p as [|c p IH]; [done|]. rewrite !JsStringFacts.app_cons.
  intros [= Heq]. by apply IH.
Qed.

(** The sidecar of a declaration file is another file. *)
Lemma sidecar_differs (filePath : string) :
  regexTest DTS filePath = true →
  regexReplace DTS filePath ".metadata.json" ≠ filePath.
Proof.
  unfold regexTest, regexReplace.
  destruct (regexIndex DTS filePath) as [i|] eqn:Hi; [|done]. intros _ Heq.
  destruct (regexIndex_Some _ _ _ Hi) as [Hin Hs]. rewrite <- Hs in Heq at 2.
  apply app_inv_head in Heq. cbn [In DTS] in Hin. destruct Hin as [Hd|[]].
  by rewrite <- Hd in Heq.
Qed.

(** X7: for a declaration file, [getMetadataFor] never runs the collector
    and never reads the declaration file itself, in the program or not:
    whatever it reads, parses or reports is the sidecar, a different file. *)
Theorem X7_declaration_file_touches_only_its_sidecar
    (env : Env SourceFile) (this : NgHost) (filePath : string) :
  regexTest DTS filePath = true →
  regexReplace DTS filePath ".metadata.json" ≠ filePath ∧
  ∃ added,
    trace (snd (getMetadataFor lib env filePath this)) = trace this ++ added ∧
    Forall (λ e, e = ReadFile (regexReplace DTS filePath ".metadata.json") ∨
                 e = ParseJson (regexReplace DTS filePath ".metadata.json") ∨
                 e = ConsoleError (regexReplace DTS filePath ".metadata.json"))
      added.
Proof.
  intros Hdts. split; [by apply sidecar_differs|].
  unfold getMetadataFor, readMetadata, parseFile, contextReadFile. run_monad.
  rewrite Hdts. repeat case_match; simplify_eq/=; trace_added.
Qed.

(** X8: a source file outside the program gets the metadata it would get
    inside it: when the program holds for the path the source file that
    [ts.createSourceFile] makes of the text on disk, the lookup returns the
    same as when the program does not know the path and the text is read. *)
Theorem X8_source_outside_program_is_parsed_alike
    (inside outside : Env SourceFile) (this1 this2 : NgHost)
    (filePath text : string) :
  regexTest DTS filePath = false →
  fileExists inside (context this1) filePath = true →
  fileExists outside (context this2) filePath = true →
  program_getSourceFile inside filePath = Some (createSourceFile lib filePath text) →
  program_getSourceFile outside filePath = None →
  readFile outside (context this2) filePath = inr text →
  fst (getMetadataFor lib inside filePath this1) =
    inr (collector_getMetadata lib (createSourceFile lib filePath text)) ∧
  fst (getMetadataFor lib outside filePath this2) =
    inr (collector_getMetadata lib (createSourceFile lib filePath text)) ∧
  trace (snd (getMetadataFor lib inside filePath this1)) =
    trace this1 ++ [CollectMetadata filePath] ∧
  trace (snd (getMetadataFor lib outside filePath this2)) =
    trace this2 ++ [ReadFile filePath; CollectMetadata filePath].
Proof.
  intros Hdts Hin Hout Hprog Hnone Hread.
  unfold getMetadataFor, contextReadFile, collect. run_monad.
  rewrite Hdts, Hin, Hout, Hprog, Hnone. cbn [negb context withTrace].
  rewrite Hread. cbn [fst snd trace withTrace].
  by rewrite <- (assoc_L (++)).
Qed.

(** X9: [readMetadata] reports 'Failed to read JSON file' exactly when it
    throws, as the last thing it does, and what it throws is the error of
    the read or the syntax error of the text read; a truthy cached value
    under the path is returned without touching anything. *)
Theorem X9_readMetadata_reports_what_it_throws
    (env : Env SourceFile) (this : NgHost) (filePath : string) :
  (∀ j, cacheGet (resolverCache this) filePath = Some j → truthyJson j = true →
     readMetadata lib env filePath this = (inr j, this)) ∧
  (∀ e, fst (readMetadata lib env filePath this) = inl e →
     (readFile env (context this) filePath = inl e ∨
      ∃ text, readFile env (context this) filePath = inr text ∧
              JSON_parse lib text = None ∧ e = JsonSyntaxError text) ∧
     ∃ added,
       trace (snd (readMetadata lib env filePath this)) =
         trace this ++ added ++ [ConsoleError filePath] ∧
       Forall (λ ev, ev = ReadFile filePath ∨ ev = ParseJson filePath) added) ∧
  (∀ j, fst (readMetadata lib env filePath this) = inr j →
     ∃ added,
       trace (snd (readMetadata lib env filePath this)) = trace this ++ added ∧
       Forall (λ ev, ev = ReadFile filePath ∨ ev = ParseJson filePath) added).
Proof.
  split; [|split].
  - intros j Hcached Hj. unfold readMetadata. run_monad. by rewrite Hcached, Hj.
  - intros e. unfold readMetadata, parseFile, contextReadFile. run_monad.
    repeat case_match; simplify_eq/=; intros [=]; subst;
      (split; [eauto 6|]);
      first
        [ exists [ReadFile filePath; ParseJson filePath];
          split; [by rewrite <- ?(assoc_L (++))
                 |repeat first [apply Forall_nil_2 | apply Forall_cons_2]; auto]
        | exists [ReadFile filePath];
          split; [by rewrite <- ?(assoc_L (++))
                 |repeat first [apply Forall_nil_2 | apply Forall_cons_2]; auto] ].
  - intros j. unfold readMetadata, parseFile, contextReadFile. run_monad.
    repeat case_match; simplify_eq/=; intros [=]; subst; trace_added.
Qed.

End MetadataCases.

Section SidecarAndCache.
Import JsString.
Context {SourceFile C : Type} `{!NgHostContext SourceFile C}.
Variable path : PathModule.
Variable lib : Externals SourceFile.

(** X10: for a declaration file that exists, with a sidecar that exists,
    is read and is not answered from the cache, the content of the sidecar
    decides: text that does not parse makes the lookup throw the syntax
    error, the empty array gives [undefined], and every other value, [null]
    and the empty object too, is returned as it is. *)
Theorem X10_sidecar_content_decides
    (env : Env SourceFile) (this : NgHost) (filePath text : string) :
  regexTest DTS filePath = true →
  fileExists env (context this) filePath = true →
  fileExists env (context this) (regexReplace DTS filePath ".metadata.json") = true →
  truthy (cacheGet (resolverCache this) (regexReplace DTS filePath ".metadata.json")) = false →
  readFile env (context this) (regexReplace DTS filePath ".metadata.json") = inr text →
  fst (getMetadataFor lib env filePath this) =
    match JSON_parse lib text with
    | None => inl (JsonSyntaxError text)
    | Some j => inr (if isEmptyArray j then None else Some j)
    end.
Proof.
  intros Hdts Hfile Hsidecar Hcache Hread.
  unfold getMetadataFor, readMetadata, parseFile, contextReadFile. run_monad.
  rewrite Hdts, Hfile, Hsidecar. cbn [negb]. unfold truthy in Hcache.
  destruct (cacheGet _ _) as [cached|]; [rewrite Hcache|];
    cbn [context withTrace]; rewrite Hread; by destruct (JSON_parse lib text).
Qed.

(** X11: on a miss (nothing truthy cached under the path)
    [getResolverMetadata] returns, or throws, what [getMetadataFor] does;
    a result is stored under the path even when it is [undefined], and a
    throw stores nothing. *)
Theorem X11_miss_asks_getMetadataFor
    (env : Env SourceFile) (this : NgHost) (filePath : string) :
  truthy (cacheGet (resolverCache this) filePath) = false →
  fst (getResolverMetadata lib env filePath this) =
    fst (getMetadataFor lib env filePath this) ∧
  match fst (getMetadataFor lib env filePath this) with
  | inr m =>
      resolverCache (snd (getResolverMetadata lib env filePath this)) =
        <[filePath := m]> (resolverCache this)
  | inl _ =>
      resolverCache (snd (getResolverMetadata lib env filePath this)) =
        resolverCache this
  end.
Proof.
  intros Hmiss. unfold getResolverMetadata. run_monad. rewrite Hmiss. cbn [negb].
  destruct (getMetadataFor_keeps lib env filePath this) as [_ Hcache].
  destruct (getMetadataFor lib env filePath this) as [[e|m] this1];
    cbn [fst snd resolverCache withResolverCache] in *; by rewrite ?Hcache.
Qed.

Lemma after_configuration (env : Env SourceFile) (call : Call) (this : NgHost) :
  options (after path lib env call this) = options this ∧
  basePath (after path lib env call this) = basePath this ∧
  genDir (after path lib env call this) = genDir this ∧
  isGenDirChildOfRootDir (after path lib env call this) = isGenDirChildOfRootDir this.
Proof.
  destruct call; cbn [after].
  - by rewrite resolveImportToFile_state.
  - rewrite resolveFileToImport_state. by destruct (host_fileExists env importedFile).
  - unfold getMetadataFor, readMetadata, parseFile, contextReadFile, collect.
    run_monad. repeat case_match; simplify_eq/=; done.
  - unfold readMetadata, parseFile, contextReadFile.
    run_monad. repeat case_match; simplify_eq/=; done.
  - done.
  - unfold getResolverMetadata, getMetadataFor, readMetadata, parseFile,
      contextReadFile, collect.
    run_monad. repeat case_match; simplify_eq/=; done.
  - done.
Qed.

(** X12: no call changes the configuration of a host: after any run its
    options, basePath, genDir and isGenDirChildOfRootDir are those it was
    constructed with. *)
Theorem X12_configuration_is_fixed
    (calls : list (Env SourceFile * Call)) (this : NgHost) :
  options (run path lib calls this) = options this ∧
  basePath (run path lib calls this) = basePath this ∧
  genDir (run path lib calls this) = genDir this ∧
  isGenDirChildOfRootDir (run path lib calls this) = isGenDirChildOfRootDir this.
Proof.
  revert this. induction calls as [|[env call] calls IH]; intros this; [done|].
  cbn [run]. destruct (IH (after path lib env call this)) as (-> & -> & -> & ->).
  apply after_configuration.
Qed.

End SidecarAndCache.

(** ** The default context, continued *)

Section NodeContextFrame.
Import JsString.
Context {SourceFile : Type}.
Variable path : PathModule.
Variable lib : Externals SourceFile.

(** X13: a forward reference turns a quiet absence into a failure.  For
    an ordinary source file that is nowhere yet, [getMetadataFor] answers
    [undefined] as long as [fileExists] of the context is false for it;
    once [resolveFileToImport] has named the file as imported, and as long
    as it is in neither the program nor on disk, the same lookup throws the
    error of reading it. *)
Theorem X13_forward_reference_makes_lookup_fail
    (env env' : Env SourceFile) (this : NgHost (C:=NodeNgHostContext.t))
    (importedFile containingFile : string) :
  host_fileExists env importedFile = false →
  regexTest DTS importedFile = false →
  program_getSourceFile env' importedFile = None →
  host_fileExists env' importedFile = false →
  fs_readFileSync env' importedFile = None →
  (fileExists env' (context this) importedFile = false →
     fst (getMetadataFor lib env' importedFile this) = inr None) ∧
  fst (getMetadataFor lib env' importedFile
         (snd (resolveFileToImport path env importedFile containingFile this)))
  = inl (ReadFileFailed importedFile).
Proof.
  intros Hmissing Hdts Hprogram Hhost Hdisk. split.
  - intros Hfresh. unfold getMetadataFor. run_monad. by rewrite Hfresh.
  - rewrite resolveFileToImport_state, Hmissing.
    unfold getMetadataFor, contextReadFile. run_monad.
    cbn [fileExists readFile assumeFileExists NodeNgHostContext_context context withContext].
    unfold NodeNgHostContext.fileExists, NodeNgHostContext.assumed,
      NodeNgHostContext.readFile, NodeNgHostContext.assumeFileExists.
    cbn [NodeNgHostContext.assumedExists]. rewrite lookup_insert_eq.
    cbn [default from_option id orb negb]. rewrite Hdts, Hprogram.
    cbn [context withTrace withContext]. by rewrite Hdisk.
Qed.

(** X14: [assumeFileExists] makes [fileExists] true for the file named and
    leaves it as it was for every other file; assuming twice is assuming
    once, the order of two assumptions does not matter, and reading files,
    reading resources and looking for directories are not affected. *)
Theorem X14_assumeFileExists_only_adds_one_file
    (env : Env SourceFile) (ctx : NodeNgHostContext.t) (f g : string) :
  NodeNgHostContext.fileExists env (NodeNgHostContext.assumeFileExists ctx f) g =
    bool_decide (f = g) || NodeNgHostContext.fileExists env ctx g ∧
  NodeNgHostContext.assumeFileExists (NodeNgHostContext.assumeFileExists ctx f) f =
    NodeNgHostContext.assumeFileExists ctx f ∧
  NodeNgHostContext.assumeFileExists (NodeNgHostContext.assumeFileExists ctx f) g =
    NodeNgHostContext.assumeFileExists (NodeNgHostContext.assumeFileExists ctx g) f ∧
  NodeNgHostContext.readFile env (NodeNgHostContext.assumeFileExists ctx f) g =
    NodeNgHostContext.readFile env ctx g ∧
  NodeNgHostContext.readResource env (NodeNgHostContext.assumeFileExists ctx f) g =
    NodeNgHostContext.readResource env ctx g ∧
  NodeNgHostContext.directoryExists env (NodeNgHostContext.assumeFileExists ctx f) g =
    NodeNgHostContext.directoryExists env ctx g.
Proof.
  repeat split.
  - unfold NodeNgHostContext.fileExists, NodeNgHostContext.assumed,
      NodeNgHostContext.assumeFileExists.
    cbn [NodeNgHostContext.assumedExists]. rewrite lookup_insert.
    destruct (decide (f = g)) as [Heq|Hne].
    + by rewrite bool_decide_eq_true_2.
    + by rewrite bool_decide_eq_false_2.
  - unfold NodeNgHostContext.assumeFileExists. cbn [NodeNgHostContext.assumedExists].
    by rewrite insert_insert_eq.
  - unfold NodeNgHostContext.assumeFileExists. cbn [NodeNgHostContext.assumedExists].
    f_equal. destruct (decide (g = f)) as [->|Hne]; [done|].
    by apply insert_insert_ne.
Qed.

End NodeContextFrame.

(** ** The roots of a host built on the POSIX [path] *)

Section PosixRoots.
Import JsString JsStringFacts RegexFacts.

Lemma endsWithSlash_cons (c : ascii) (s : string) :
  s ≠ "" → Posix.endsWithSlash (String c s) = Posix.endsWithSlash s.
Proof.
  destruct s as [|d s]; [done|]. intros _. unfold Posix.endsWithSlash.
  cbn [String.length String.get Nat.sub]. by rewrite Nat.sub_0_r.
Qed.

Lemma app_not_empty (s t : string) : t ≠ "" → s +:+ t ≠ "".
Proof. by destruct s. Qed.

Lemma endsWithSlash_app (s t : string) :
  t ≠ "" → Posix.endsWithSlash (s +:+ t) = Posix.endsWithSlash t.
Proof.
  intros Ht. induction s as [|c s IH]; [done|].
  rewrite app_cons, endsWithSlash_cons; [done|]. by apply app_not_empty.
Qed.

Lemma endsWithSlash_contains (s : string) :
  Posix.endsWithSlash s = true → contains "/" s = true.
Proof.
  induction s as [|c s IH]; [done|]. destruct s as [|d s].
  - unfold Posix.endsWithSlash. cbn [String.length Nat.sub String.get contains].
    intros ->. done.
  - rewrite endsWithSlash_cons by done. intros Hs. cbn [contains] in *.
    rewrite (IH Hs). apply orb_true_r.
Qed.

Lemma split_no_slash (p : string) :
  Forall (λ seg, contains "/" seg = false) (Posix.split p).
Proof.
  induction p as [|c p IH]; cbn [Posix.split]; [by repeat constructor|].
  destruct (Ascii.eqb c "/") eqn:Hc; [by constructor|].
  destruct (Posix.split p) as [|seg segs]; [repeat constructor; cbn [contains]; by rewrite Hc|].
  apply Forall_cons in IH as [Hseg Hsegs]. constructor; [|done].
  cbn [contains]. by rewrite Hc, Hseg.
Qed.

Lemma split_keeps_out (x : ascii) (p : string) :
  contains x p = false → Forall (λ seg, contains x seg = false) (Posix.split p).
Proof.
  induction p as [|c p IH]; cbn [Posix.split contains]; [by repeat constructor|].
  intros [Hc Hp]%orb_false_iff. specialize (IH Hp).
  destruct (Ascii.eqb c "/"); [by constructor|].
  destruct (Posix.split p) as [|seg segs]; [repeat constructor; cbn [contains]; by rewrite Hc|].
  apply Forall_cons in IH as [Hseg Hsegs]. constructor; [|done].
  cbn [contains]. by rewrite Hc, Hseg.
Qed.

Lemma normalizeStep_clean (allow : bool) (stack : list string) (seg : string) :
  Forall cleanSegment stack →
  contains "/" seg = false → contains "\" seg = false →
  Forall cleanSegment (Posix.normalizeStep allow stack seg).
Proof.
  intros Hstack Hslash Hback. unfold Posix.normalizeStep.
  destruct (String.eqb seg "") eqn:Hempty; [done|].
  assert (cleanSegment seg) as Hseg.
  { split; [|done]. intros ->. done. }
  destruct (String.eqb seg "."); cbn [orb]; [done|].
  destruct (String.eqb seg "..").
  - destruct stack as [|top below].
    { destruct allow; [by apply Forall_cons_2|done]. }
    pose proof Hstack as [Htop Hbelow]%Forall_cons.
    destruct (String.eqb top ".."); [|done].
    destruct allow; [by apply Forall_cons_2|done].
  - by apply Forall_cons_2.
Qed.

Lemma normalizeSegments_clean (allow : bool) (p : string) :
  contains "\" p = false → Forall cleanSegment (Posix.normalizeSegments allow p).
Proof.
  intros Hback. unfold Posix.normalizeSegments. apply Forall_rev.
  pose proof (split_no_slash p) as Hslash.
  pose proof (split_keeps_out "\" p Hback) as Hbacks.
  assert (Forall cleanSegment (@nil string)) as Hstack by constructor.
  revert Hstack. generalize (@nil string) as stack.
  induction (Posix.split p) as [|seg segs IH]; intros stack Hstack; [done|].
  apply Forall_cons in Hslash as [? ?]. apply Forall_cons in Hbacks as [? ?].
  cbn [fold_left]. apply IH; [done..|]. by apply normalizeStep_clean.
Qed.

Lemma joinSegments_clean (segs : list string) :
  Forall cleanSegment segs → segs ≠ [] →
  Posix.joinSegments segs ≠ "" ∧
  Posix.endsWithSlash (Posix.joinSegments segs) = false ∧
  contains "\" (Posix.joinSegments segs) = false.
Proof.
  induction segs as [|seg segs IH]; [done|]. intros Hclean _.
  apply Forall_cons in Hclean as [(Hne & Hslash & Hback) Hsegs].
  destruct segs as [|seg2 segs].
  - cbn [Posix.joinSegments]. split; [done|]. split; [|done].
    destruct (Posix.endsWithSlash seg) eqn:Hend; [|done].
    apply endsWithSlash_contains in Hend. congruence.
  - destruct (IH Hsegs ltac:(done)) as (Hne2 & Hend2 & Hback2).
    change (Posix.joinSegments (seg :: seg2 :: segs))
      with (seg +:+ "/" +:+ Posix.joinSegments (seg2 :: segs)).
    split; [by apply app_not_empty|]. split.
    + rewrite endsWithSlash_app by done.
      change ("/" +:+ Posix.joinSegments (seg2 :: segs))
        with (String "/" (Posix.joinSegments (seg2 :: segs))).
      by rewrite endsWithSlash_cons.
    + rewrite !contains_app, Hback, Hback2. done.
Qed.

(** [path.normalize] of a path that does not end with a slash does not end
    with one either, the root [/] apart. *)
Lemma normalize_no_trailing_slash (p : string) :
  contains "\" p = false → Posix.endsWithSlash p = false →
  (Posix.normalize p = "/" ∨ Posix.endsWithSlash (Posix.normalize p) = false) ∧
  contains "\" (Posix.normalize p) = false.
Proof.
  intros Hback Hend. unfold Posix.normalize. rewrite Hend.
  destruct (String.eqb p ""); [by split; [right|]|].
  pose proof (normalizeSegments_clean (negb (Posix.isAbsolute p)) p Hback) as Hclean.
  destruct (Posix.normalizeSegments (negb (Posix.isAbsolute p)) p) as [|seg segs] eqn:Hsegs.
  - cbn [Posix.joinSegments String.eqb]. destruct (Posix.isAbsolute p); by split; [auto|].
  - destruct (joinSegments_clean _ Hclean ltac:(done)) as (Hne & Hjoin & Hbackj).
    destruct (String.eqb (Posix.joinSegments (seg :: segs)) "") eqn:Hempty.
    { by apply String.eqb_eq in Hempty. }
    destruct (Posix.isAbsolute p); [|by split; [right|]].
    split.
    + right. change ("/" +:+ Posix.joinSegments (seg :: segs))
        with (String "/" (Posix.joinSegments (seg :: segs))).
      by rewrite endsWithSlash_cons.
    + by rewrite contains_app, Hbackj.
Qed.

Lemma replaceBackslashes_id (s : string) :
  contains "\" s = false → replaceBackslashes s = s.
Proof.
  induction s as [|c s IH]; [done|]. cbn [contains replaceBackslashes].
  intros [Hc Hs]%orb_false_iff. by rewrite Hc, IH.
Qed.

(** What the constructor makes of a root given without backslash. *)
Lemma root_no_trailing_slash (p : string) :
  contains "\" p = false →
  let root := replaceBackslashes (Posix.normalize (Posix.join p ".")) in
  root = "/" ∨ Posix.endsWithSlash root = false.
Proof.
  intros Hback root.
  assert ((Posix.join p "." = "/" ∨ Posix.endsWithSlash (Posix.join p ".") = false) ∧
          contains "\" (Posix.join p ".") = false) as [Hjoin Hbackj].
  { unfold Posix.join. destruct (String.eqb p ""); [by split; [right|]|].
    cbn [String.eqb]. apply normalize_no_trailing_slash.
    - by rewrite contains_app, Hback.
    - by rewrite endsWithSlash_app. }
  assert ((Posix.normalize (Posix.join p ".") = "/" ∨
           Posix.endsWithSlash (Posix.normalize (Posix.join p ".")) = false) ∧
          contains "\" (Posix.normalize (Posix.join p ".")) = false) as [Hnorm Hbackn].
  { destruct Hjoin as [->|Hend]; [by split; [left|]|].
    by apply normalize_no_trailing_slash. }
  unfold root. by rewrite replaceBackslashes_id.
Qed.

(** X15: "normalize the path so that it never ends with '/'".  On the
    POSIX [path], the basePath and the genDir of a new host do not end with
    a slash, unless they are the root [/] itself, whenever the options give
    them without backslash. *)
Theorem X15_roots_do_not_end_with_slash {C : Type}
    (cwd : string) (opts : AngularCompilerOptions) (ctx : C) :
  contains "\" (opt_basePath opts) = false →
  contains "\" (opt_genDir opts) = false →
  let this := new (Posix.path cwd) opts ctx in
  (basePath this = "/" ∨ Posix.endsWithSlash (basePath this) = false) ∧
  (genDir this = "/" ∨ Posix.endsWithSlash (genDir this) = false).
Proof.
  intros Hbase Hgen this. split.
  - exact (root_no_trailing_slash _ Hbase).
  - exact (root_no_trailing_slash _ Hgen).
Qed.

End PosixRoots.

(** ** The further properties on the sample project *)

Lemma suffix_check (q a b : string) :
  b = q +:+ a → JsString.drop (String.length b - String.length a) b = a.
Proof.
  intros ->. rewrite JsStringFacts.length_app.
  replace (String.length q + String.length a - String.length a)%nat
    with (String.length q) by lia.
  apply JsStringFacts.drop_app_length.
Qed.

Lemma X2_witness :
  fst (resolveFileToImport Sample.path Sample.emptyEnv "/proj/src/app/b.ts"
         "/proj/src/app/a.ngfactory.ts" (Sample.host Sample.nested)) =
  fst (resolveFileToImport Sample.path Sample.env "/proj/src/app/b.d.ts"
         "/proj/src/app/a.ngfactory.ts" (Sample.host Sample.nested)).
Proof.
  refine (X2_import_ignores_extension Sample.path Sample.emptyEnv Sample.env
            (Sample.host Sample.nested) "/proj/src/app/b" ".ts" ".d.ts"
            "/proj/src/app/a.ngfactory.ts" _ _).
  - split; [cbn; auto|]. intros _ q Heq. apply suffix_check in Heq.
    vm_compute in Heq. discriminate.
  - split; [cbn; auto 6|]. discriminate.
Defined.

Lemma X4_witness :
  fst (resolveFileToImport Sample.path Sample.env
         "/proj/node_modules/@angular/core/index.d.ts"
         "/proj/src/app/a.ngfactory.ts" (Sample.host Sample.sideBySide)) =
  fst (resolveFileToImport Sample.path Sample.emptyEnv
         "/home/me/lib/node_modules/@angular/core/index.js"
         "/proj/src/app/a.ngfactory.ts" (Sample.host Sample.sideBySide)).
Proof.
  refine (X4_dependency_location_is_irrelevant Sample.path Sample.env Sample.emptyEnv
            (Sample.host Sample.sideBySide)
            "/proj/node_modules/@angular/core/index.d.ts"
            "/home/me/lib/node_modules/@angular/core/index.js"
            "/proj/src/app/a.ngfactory.ts" "/proj" "/home/me/lib" "@angular/core/index"
            _ _ _).
  - exact (JsStringFacts.firstIndex_FirstOccurrence
             "/proj/node_modules/@angular/core/index" NODE_MODULES 5 eq_refl).
  - exact (JsStringFacts.firstIndex_FirstOccurrence
             "/home/me/lib/node_modules/@angular/core/index" NODE_MODULES 12 eq_refl).
  - discriminate.
Defined.

Lemma X5_witness :
  let this := Sample.host Sample.nested in
  rewriteGenDirPath Sample.path this "/proj/src/app/a.ts" = "/proj/src/gen/app/a.ts" ∧
  rewriteGenDirPath Sample.path this "/proj/src/gen/app/a.ts"
    = "/proj/src/gen/gen/app/a.ts".
Proof.
  exact (X5_nested_genDir_relocates_twice Sample.path (Sample.host Sample.nested)
           "/gen" "/app/a.ts" eq_refl eq_refl
           (JsStringFacts.firstIndex_None "/proj/src/app/a.ts" NODE_MODULES eq_refl)
           (JsStringFacts.firstIndex_None "/proj/src/gen/app/a.ts" NODE_MODULES eq_refl)).
Defined.

Lemma X6_witness :
  fst (resolveImportToFile Sample.path Sample.lib Sample.env "./b.ts"
         (Some "C:\proj\src\a.ts") (Sample.host Sample.nested))
  = inr None.
Proof.
  exact (proj1 (proj2 (X6_resolveImportToFile_errors Sample.path Sample.lib Sample.env
                         (Sample.host Sample.nested) "./b.ts" (Some "C:\proj\src\a.ts")))
           "C:\proj\src\a.ts" eq_refl ltac:(discriminate)).
Defined.

Lemma X7_witness :
  JsString.regexReplace DTS "/proj/lib/b.d.ts" ".metadata.json" ≠ "/proj/lib/b.d.ts" ∧
  ∃ added,
    trace (snd (getMetadataFor Sample.lib Loaded.env "/proj/lib/b.d.ts"
                  (Sample.host Sample.nested))) = [] ++ added ∧
    Forall (λ e, e = ReadFile "/proj/lib/b.metadata.json" ∨
                 e = ParseJson "/proj/lib/b.metadata.json" ∨
                 e = ConsoleError "/proj/lib/b.metadata.json") added.
Proof.
  exact (X7_declaration_file_touches_only_its_sidecar Sample.lib Loaded.env
           (Sample.host Sample.nested) "/proj/lib/b.d.ts" eq_refl).
Defined.

Lemma X8_witness :
  fst (getMetadataFor Sample.lib Loaded.env "/proj/src/a.ts" (Sample.host Sample.nested))
  = fst (getMetadataFor Sample.lib Sample.env "/proj/src/a.ts" (Sample.host Sample.nested))
  ∧ trace (snd (getMetadataFor Sample.lib Loaded.env "/proj/src/a.ts"
                  (Sample.host Sample.nested)))
    = [CollectMetadata "/proj/src/a.ts"].
Proof.
  pose proof (X8_source_outside_program_is_parsed_alike Sample.lib Loaded.env Sample.env
                (Sample.host Sample.nested) (Sample.host Sample.nested)
                "/proj/src/a.ts" "export class A {}"
                eq_refl eq_refl eq_refl eq_refl eq_refl eq_refl)
    as (Hin & Hout & Htrace & _).
  split; [exact (eq_trans Hin (eq_sym Hout))|exact Htrace].
Defined.

Lemma X9_witness :
  ∃ added,
    trace (snd (readMetadata Sample.lib Sample.emptyEnv "/proj/lib/b.metadata.json"
                  (Sample.host Sample.nested)))
    = [] ++ added ++ [ConsoleError "/proj/lib/b.metadata.json"] ∧
    Forall (λ ev, ev = ReadFile "/proj/lib/b.metadata.json" ∨
                  ev = ParseJson "/proj/lib/b.metadata.json") added.
Proof.
  exact (proj2 (proj1 (proj2 (X9_readMetadata_reports_what_it_throws Sample.lib
                                Sample.emptyEnv (Sample.host Sample.nested)
                                "/proj/lib/b.metadata.json"))
                  (ReadFileFailed "/proj/lib/b.metadata.json") eq_refl)).
Defined.

Lemma X10_witness :
  fst (getMetadataFor Sample.lib Sample.env "/proj/lib/c.d.ts" (Sample.host Sample.nested))
  = inr (Some (JObject [])).
Proof.
  exact (X10_sidecar_content_decides Sample.lib Sample.env (Sample.host Sample.nested)
           "/proj/lib/c.d.ts" "{}" eq_refl eq_refl eq_refl eq_refl eq_refl).
Defined.

Lemma X11_witness :
  fst (getResolverMetadata Sample.lib Sample.env "/proj/src/a.ts" (Sample.host Sample.nested))
  = fst (getMetadataFor Sample.lib Sample.env "/proj/src/a.ts" (Sample.host Sample.nested)).
Proof.
  exact (proj1 (X11_miss_asks_getMetadataFor Sample.lib Sample.env
                  (Sample.host Sample.nested) "/proj/src/a.ts" eq_refl)).
Defined.

Lemma X13_witness :
  let importedFile := "/proj/src/gen/app/b.ngfactory.ts" in
  fst (getMetadataFor Sample.lib Sample.emptyEnv importedFile (Sample.host Sample.nested))
  = inr None ∧
  fst (getMetadataFor Sample.lib Sample.emptyEnv importedFile
         (snd (resolveFileToImport Sample.path Sample.emptyEnv importedFile
                 "/proj/src/app/a.ngfactory.ts" (Sample.host Sample.nested))))
  = inl (ReadFileFailed importedFile).
Proof.
  pose proof (X13_forward_reference_makes_lookup_fail Sample.path Sample.lib
                Sample.emptyEnv Sample.emptyEnv (Sample.host Sample.nested)
                "/proj/src/gen/app/b.ngfactory.ts" "/proj/src/app/a.ngfactory.ts"
                eq_refl eq_refl eq_refl eq_refl eq_refl) as [Hbefore Hafter].
  split; [exact (Hbefore eq_refl)|exact Hafter].
Defined.

Lemma X15_witness :
  let this :=
    new (Posix.path "/") {| opt_basePath := "/proj/src/"; opt_genDir := "/" |}
      NodeNgHostContext.new in
  basePath this = "/proj/src" ∧ genDir this = "/" ∧
  Posix.endsWithSlash (basePath this) = false.
Proof.
  pose proof (X15_roots_do_not_end_with_slash "/"
                {| opt_basePath := "/proj/src/"; opt_genDir := "/" |}
                NodeNgHostContext.new eq_refl eq_refl) as [[Hbase|Hbase] _].
  - discriminate Hbase.
  - split; [reflexivity|]. split; [reflexivity|exact Hbase].
Defined.
